(** * bot_map: the city catalog, the favorites table and the map renderer

    A shallow embedding of [src/logic.py] (class [DB_Map]).

    - Python [str] values are sequences of Unicode code points ([list N]).
    - Python [float] values are IEEE 754 binary64 numbers (Rocq's primitive
      floats), so [lon + 1] is the machine addition the interpreter performs.
    - The SQLite database is a record of its two tables, each in scan order.
    - [matplotlib.pyplot] is a global registry of open figures; the file
      system is a finite map from paths to the picture written there.  What
      matplotlib decides on its own (whether a figure can be laid out and
      rasterised, which file a name stands for) is a parameter. *)

From Stdlib Require Import ZArith NArith List Floats Ascii String.
From stdpp Require Import gmap list sorting.

Open Scope N_scope.

(** ** Python strings *)

Abbreviation pystr := (list N).

(** An ASCII literal as a Python string. *)
Definition py (s : string) : pystr :=
  List.map N_of_ascii (list_ascii_of_string s).

(** [str.isspace] for one character: the code points CPython treats as
    white space ([_PyUnicode_IsWhitespace]). *)
Definition isspace (c : N) : bool :=
  ((9 <=? c) && (c <=? 13)) || ((28 <=? c) && (c <=? 32))
  || (c =? 133) || (c =? 160) || (c =? 5760)
  || ((8192 <=? c) && (c <=? 8202))
  || (c =? 8232) || (c =? 8233) || (c =? 8239) || (c =? 8287)
  || (c =? 12288).

Fixpoint lstrip (s : pystr) : pystr :=
  match s with
  | [] => []
  | c :: s' => if isspace c then lstrip s' else s
  end.

Definition rstrip (s : pystr) : pystr := reverse (lstrip (reverse s)).

(** [s.strip()] *)
Definition strip (s : pystr) : pystr := rstrip (lstrip s).

(** ** SQLite text functions *)

Definition is_ascii_upper (c : N) : bool := (65 <=? c) && (c <=? 90).

(** SQLite's built-in [LOWER] folds the 26 ASCII capitals and leaves every
    other character as it is (no ICU extension is loaded by [sqlite3]). *)
Definition sqlite_lower_char (c : N) : N :=
  if is_ascii_upper c then c + 32 else c.

Definition sqlite_lower (s : pystr) : pystr := sqlite_lower_char <$> s.

(** Text comparison under the default BINARY collation.  UTF-8 keeps the
    order of code points, so the byte order is the lexicographic order of
    the code point sequences. *)
Fixpoint str_leb (a b : pystr) : bool :=
  match a, b with
  | [], _ => true
  | _ :: _, [] => false
  | x :: a', y :: b' =>
      if x <? y then true else if x =? y then str_leb a' b' else false
  end.

Definition str_le (a b : pystr) : Prop := str_leb a b = true.

(** ** Case variants of a string *)

(** Two characters that differ at most in the case of an ASCII letter. *)
Definition ascii_case_eq (a b : N) : Prop :=
  a = b \/ (is_ascii_upper a = true /\ b = a + 32)
        \/ (is_ascii_upper b = true /\ a = b + 32).

Definition ascii_case_variant (s t : pystr) : Prop := Forall2 ascii_case_eq s t.

(** The capitals of the Latin-1 Supplement block (U+00C0..U+00DE without the
    multiplication sign U+00D7); Unicode maps each to the letter 32 code
    points above it, as [str.lower] does. *)
Definition is_latin1_upper (c : N) : bool :=
  ((192 <=? c) && (c <=? 214)) || ((216 <=? c) && (c <=? 222)).

(** Two characters that differ at most in case, for ASCII and Latin-1
    letters. *)
Definition unicode_case_eq (a b : N) : Prop :=
  ascii_case_eq a b
  \/ (is_latin1_upper a = true /\ b = a + 32)
  \/ (is_latin1_upper b = true /\ a = b + 32).

Definition unicode_case_variant (s t : pystr) : Prop :=
  Forall2 unicode_case_eq s t.

(** ** Python values and exceptions *)

(** The values this program stores in its dictionaries: strings and floats;
    [None] is what [dict.get] gives for a missing key. *)
Inductive pyval : Type :=
  | VNone
  | VStr (s : pystr)
  | VFloat (f : float).

Inductive exn : Type :=
  | KeyError (k : pystr)
  | TypeError
  | ValueError
  | OSError
  | OperationalError
  | IntegrityError.

Inductive result (A : Type) : Type :=
  | Ok (a : A)
  | Raise (e : exn).
Arguments Ok {A} a.
Arguments Raise {A} e.

Inductive feature : Type := LAND | OCEAN | COASTLINE | BORDERS.

(** The calls made on a figure, in the order they are made. *)
Inductive draw : Type :=
  | SetGlobal
  | AddFeature (f : feature)
  | Plot (lon lat : float)
  | Text (x y : float) (s : pystr)
  | TightLayout.

(** What the program takes from outside this repository.

    The interpreter: parsing a string as a float ([None] stands for the
    [ValueError] of [float("x")]) and printing a float.

    matplotlib, in [plt.tight_layout()] and
    [plt.savefig(out_path, dpi=200, bbox_inches="tight")]:
    - [layout_error calls] is the exception [tight_layout] raises on a figure
      that received [calls], if it raises;
    - [savefig_name out_path] is the file [savefig] writes for [out_path]
      (the name with the default extension appended when it has none), or
      the exception for a name whose format is not supported;
    - [render_error target calls] is the exception raised while the figure
      is rasterised for the file [target] (a label that cannot be typeset,
      an image too large for the canvas), if one is. *)
Record builtins : Type := Builtins {
  float_of_str : pystr -> option float;
  str_of_float : float -> pystr;
  layout_error : list draw -> option exn;
  savefig_name : pystr -> result pystr;
  render_error : pystr -> list draw -> option exn
}.

(** [bool(v)] *)
Definition truthy (v : pyval) : bool :=
  match v with
  | VNone => false
  | VStr s => match s with [] => false | _ :: _ => true end
  | VFloat f => negb (PrimFloat.eqb f 0%float)
  end.

(** [a or b] *)
Definition py_or (a b : pyval) : pyval := if truthy a then a else b.

(** [float(v)] *)
Definition py_float (B : builtins) (v : pyval) : result float :=
  match v with
  | VNone => Raise TypeError
  | VStr s =>
      match float_of_str B s with
      | Some f => Ok f
      | None => Raise ValueError
      end
  | VFloat f => Ok f
  end.

(** [str(v)] *)
Definition py_str (B : builtins) (v : pyval) : pystr :=
  match v with
  | VNone => py "None"
  | VStr s => s
  | VFloat f => str_of_float B f
  end.

Abbreviation pydict := (gmap pystr pyval).

(** [item[k]] *)
Definition getitem (item : pydict) (k : pystr) : result pyval :=
  match item !! k with
  | Some v => Ok v
  | None => Raise (KeyError k)
  end.

(** [item.get(k, default)] *)
Definition dict_get (item : pydict) (k : pystr) (default : pyval) : pyval :=
  match item !! k with
  | Some v => v
  | None => default
  end.

(** ** The database *)

(** A row of [cities], as the type alias [CityRow] of the source gives it:
    id, city, lat, lng, country, population.  On such rows [int(city[0])],
    [float(lat)] and [str(name)] return their argument. *)
Record CityRow : Type := mkCity {
  c_id : Z;
  c_city : pystr;
  c_lat : float;
  c_lng : float;
  c_country : pystr;
  c_population : Z
}.

(** [users_cities] is [None] until [create_user_table] has created it. *)
Record database : Type := Database {
  cities : list CityRow;
  users_cities : option (list (Z * Z))
}.

(** [PRIMARY KEY (user_id, city_id)]: no pair is stored twice. *)
Definition users_cities_key (db : database) : Prop :=
  match users_cities db with
  | Some t => NoDup t
  | None => True
  end.

(** [cursor.fetchone()] *)
Definition fetchone {A : Type} (rows : list A) : option A := head rows.

(** [CREATE TABLE IF NOT EXISTS users_cities (...)] *)
Definition create_user_table (db : database) : database :=
  match users_cities db with
  | Some _ => db
  | None => {| cities := cities db; users_cities := Some [] |}
  end.

(** [WHERE LOWER(city)=LOWER(?)] *)
Definition name_matches (param : pystr) (c : CityRow) : bool :=
  bool_decide (sqlite_lower (c_city c) = sqlite_lower param).

Definition get_city_by_name (db : database) (city_name : pystr)
  : option CityRow :=
  fetchone (filter (fun c => name_matches (strip city_name) c = true)
                   (cities db)).

Definition get_coords_by_name (db : database) (city_name : pystr)
  : option (float * float * pystr) :=
  let row :=
    fetchone
      ((fun c => (c_lat c, c_lng c, c_city c)) <$>
         filter (fun c => name_matches (strip city_name) c = true)
                (cities db)) in
  match row with
  | Some (lat, lng, name) => Some (lat, lng, name)
  | None => None
  end.

(** What an [INSERT] does when the new row collides with the primary key. *)
Inductive on_conflict : Type := Abort | Ignore.

Definition sql_insert (policy : on_conflict) (row : Z * Z)
    (table : option (list (Z * Z))) : result (list (Z * Z)) :=
  match table with
  | None => Raise OperationalError
  | Some t =>
      if bool_decide (row ∈ t) then
        match policy with
        | Abort => Raise IntegrityError
        | Ignore => Ok t
        end
      else Ok (t ++ [row])
  end.

Definition add_city (db : database) (user_id : Z) (city_name : pystr)
  : result (bool * database) :=
  match get_city_by_name db city_name with
  | None => Ok (false, db)
  | Some city =>
      let city_id := c_id city in
      match sql_insert Ignore (user_id, city_id) (users_cities db) with
      | Ok t => Ok (true, {| cities := cities db; users_cities := Some t |})
      | Raise e => Raise e
      end
  end.

(** The row type of the favorites query: city, lat, lng, country. *)
Abbreviation fav_row := (pystr * float * float * pystr)%type.

Definition fav_city (r : fav_row) : pystr := r.1.1.1.

(** [ORDER BY c.city] *)
Definition by_city (r1 r2 : fav_row) : Prop :=
  str_le (fav_city r1) (fav_city r2).

#[global] Instance by_city_dec (r1 r2 : fav_row) : Decision (by_city r1 r2) :=
  decide (str_leb (fav_city r1) (fav_city r2) = true).

(** [SELECT c.city, c.lat, c.lng, c.country] *)
Definition fav_columns (c : CityRow) : fav_row :=
  (c_city c, c_lat c, c_lng c, c_country c).

(** [FROM users_cities uc JOIN cities c ON c.id = uc.city_id
     WHERE uc.user_id = ?], with the four selected columns. *)
Definition favorites_join (cs : list CityRow) (t : list (Z * Z)) (user_id : Z)
  : list fav_row :=
  uc ← filter (fun uc : Z * Z => uc.1 = user_id) t;
  fav_columns <$> filter (fun c => c_id c = uc.2) cs.

(** The dictionary built for one row of the query. *)
Definition city_record (r : fav_row) : pydict :=
  <[py "city" := VStr r.1.1.1]>
    (<[py "lat" := VFloat r.1.1.2]>
       (<[py "lon" := VFloat r.1.2]>
          (<[py "lng" := VFloat r.1.2]>
             (<[py "country" := VStr r.2]> ∅)))).

Definition select_cities (db : database) (user_id : Z)
  : result (list pydict) :=
  match users_cities db with
  | None => Raise OperationalError
  | Some t =>
      let rows := merge_sort by_city (favorites_join (cities db) t user_id) in
      Ok (city_record <$> rows)
  end.

(** ** The renderer *)

(** The process-wide state the renderer touches: pyplot's registry of open
    figures (in creation order, the last one is the current figure), the
    pictures written to disk, and the files the file system lets the process
    create or overwrite. *)
Record world : Type := World {
  figs : list (nat * list draw);
  files : gmap pystr (list draw);
  writable : pystr -> bool
}.

(** A computation that may raise; the state survives the exception. *)
Definition M (A : Type) : Type := world -> result A * world.

#[global] Instance M_ret : MRet M := fun A (a : A) w => (Ok a, w).

#[global] Instance M_bind : MBind M := fun A B (f : A -> M B) (m : M A) w =>
  match m w with
  | (Ok a, w') => f a w'
  | (Raise e, w') => (Raise e, w')
  end.

Definition lift {A : Type} (r : result A) : M A := fun w => (r, w).

Definition set_figs (w : world) (fs : list (nat * list draw)) : world :=
  {| figs := fs; files := files w; writable := writable w |}.

(** [plt.figure(...)]: a new figure under the next free number, made the
    current one. *)
Definition plt_figure : M nat := fun w =>
  let n := S (max_list (fst <$> figs w)) in
  (Ok n, set_figs w (figs w ++ [(n, [])])).

(** [plt.gcf()] *)
Definition plt_gcf : M nat := fun w =>
  match last (figs w) with
  | Some (n, _) => (Ok n, w)
  | None => plt_figure w
  end.

(** [plt.axes(projection=...)]: axes on the current figure. *)
Definition plt_axes : M nat := plt_gcf.

(** A drawing call on the axes of figure [ax]. *)
Definition ax_call (ax : nat) (d : draw) : M unit := fun w =>
  (Ok tt,
   set_figs w
     ((fun f : nat * list draw =>
         if bool_decide (f.1 = ax) then (f.1, f.2 ++ [d]) else f) <$> figs w)).

(** The calls figure [fig] has received. *)
Definition figure_calls (w : world) (fig : nat) : list draw :=
  default [] (snd <$> head (filter (fun f => f.1 = fig) (figs w))).

(** Laying out figure [fig]: the library may refuse the figure. *)
Definition layout_figure (B : builtins) (fig : nat) : M unit := fun w =>
  match layout_error B (figure_calls w fig) with
  | Some e => (Raise e, w)
  | None => ax_call fig TightLayout w
  end.

(** [plt.tight_layout()]: lays out the current figure. *)
Definition plt_tight_layout (B : builtins) : M unit :=
  fig ← plt_gcf; layout_figure B fig.

(** Saving figure [fig] under [out_path].  The library settles the format
    and the name of the file first, then rasterises the figure, then opens
    the file for writing; each step can raise, and nothing is written
    unless all three succeed.  The file written is the one the library
    named, which need not be [out_path]. *)
Definition write_figure (B : builtins) (fig : nat) (out_path : pystr)
  : M unit := fun w =>
  match savefig_name B out_path with
  | Raise e => (Raise e, w)
  | Ok target =>
      let picture := figure_calls w fig in
      match render_error B target picture with
      | Some e => (Raise e, w)
      | None =>
          if writable w target then
            (Ok tt,
             {| figs := figs w;
                files := <[target := picture]> (files w);
                writable := writable w |})
          else (Raise OSError, w)
      end
  end.

(** [plt.savefig(out_path, ...)]: saves the current figure. *)
Definition plt_savefig (B : builtins) (out_path : pystr) : M unit :=
  fig ← plt_gcf; write_figure B fig out_path.

(** [plt.close(fig)] *)
Definition plt_close (fig : nat) : M unit := fun w =>
  (Ok tt, set_figs w (filter (fun f => f.1 <> fig) (figs w))).

Fixpoint for_each {A : Type} (body : A -> M unit) (l : list A) : M unit :=
  match l with
  | [] => mret tt
  | x :: l' => body x ≫= fun _ => for_each body l'
  end.

(** [str(item.get("city") or item.get("name") or "")] *)
Definition point_label (B : builtins) (item : pydict) : pystr :=
  py_str B (py_or (py_or (dict_get item (py "city") VNone)
                     (dict_get item (py "name") VNone))
              (VStr [])).

(** The body of the loop over [cities]. *)
Definition plot_city (B : builtins) (ax : nat) (item : pydict) : M unit :=
  let name := point_label B item in
  v ← lift (getitem item (py "lat"));
  lat ← lift (py_float B v);
  lon ← lift (py_float B (dict_get item (py "lon")
                            (dict_get item (py "lng") VNone)));
  _ ← ax_call ax (Plot lon lat);
  if truthy (VStr name) then ax_call ax (Text (lon + 1)%float (lat + 1)%float name)
  else mret tt.

Definition create_graph (B : builtins) (out_path : pystr)
    (cities : list pydict) : M pystr :=
  fig ← plt_figure;
  ax ← plt_axes;
  _ ← ax_call ax SetGlobal;
  _ ← ax_call ax (AddFeature LAND);
  _ ← ax_call ax (AddFeature OCEAN);
  _ ← ax_call ax (AddFeature COASTLINE);
  _ ← ax_call ax (AddFeature BORDERS);
  _ ← for_each (plot_city B ax) cities;
  _ ← plt_tight_layout B;
  _ ← plt_savefig B out_path;
  _ ← plt_close fig;
  mret out_path.

(** ** What one rendering call draws

    The pure content of the loop in [create_graph], used to state what a
    call leaves in the figure and in the file. *)

(** The coordinates read from a point record, in the order the loop body
    converts them: [float(item["lat"])], then
    [float(item.get("lon", item.get("lng")))]. *)
Definition point_coords (B : builtins) (item : pydict) : result (float * float) :=
  match getitem item (py "lat") with
  | Raise e => Raise e
  | Ok v =>
      match py_float B v with
      | Raise e => Raise e
      | Ok lat =>
          match py_float B (dict_get item (py "lon")
                              (dict_get item (py "lng") VNone)) with
          | Raise e => Raise e
          | Ok lon => Ok (lat, lon)
          end
      end
  end.

(** A point record as the loop body reads it: label, latitude, longitude. *)
Definition point_of (B : builtins) (item : pydict)
  : result (pystr * float * float) :=
  match point_coords B item with
  | Ok (lat, lon) => Ok (point_label B item, lat, lon)
  | Raise e => Raise e
  end.

(** The calls made for one point: [ax.plot], then [ax.text] under
    [if name:]. *)
Definition marker_and_label (name : pystr) (lat lon : float) : list draw :=
  Plot lon lat ::
  (if truthy (VStr name) then [Text (lon + 1)%float (lat + 1)%float name]
   else []).

(** The calls the loop makes before it ends or raises, with the exception
    that stopped it. *)
Fixpoint overlay (B : builtins) (items : list pydict)
  : list draw * option exn :=
  match items with
  | [] => ([], None)
  | item :: rest =>
      match point_coords B item with
      | Raise e => ([], Some e)
      | Ok (lat, lon) =>
          let r := overlay B rest in
          (marker_and_label (point_label B item) lat lon ++ r.1, r.2)
      end
  end.

(** The calls made for a sequence of points. *)
Definition points_draws (pts : list (pystr * float * float)) : list draw :=
  p ← pts; marker_and_label p.1.1 p.1.2 p.2.

(** The base map: [set_global] and the four [add_feature] calls. *)
Definition base_layers : list draw :=
  [SetGlobal; AddFeature LAND; AddFeature OCEAN; AddFeature COASTLINE;
   AddFeature BORDERS].

(** The library and the file system accept a figure that received [calls]:
    [tight_layout] lays it out, [savefig] names the file [target] for
    [out_path] and rasterises the figure, and [target] can be written. *)
Definition accepts (B : builtins) (w : world) (out_path target : pystr)
    (calls : list draw) : Prop :=
  layout_error B calls = None
  /\ savefig_name B out_path = Ok target
  /\ render_error B target (calls ++ [TightLayout]) = None
  /\ writable w target = true.

(** The end of a rendering call, from [plt.tight_layout()] on, for the
    figure [n] that the call opened in [w] and that received [calls]: the
    first step that raises ends the call with the figure still open; when
    none does, the file is written, the figure closed and [out_path]
    returned. *)
Definition finish (B : builtins) (out_path : pystr) (w : world) (n : nat)
    (calls : list draw) : result pystr * world :=
  let open_with ds :=
    {| figs := figs w ++ [(n, ds)]; files := files w;
       writable := writable w |} in
  match layout_error B calls with
  | Some e => (Raise e, open_with calls)
  | None =>
      let picture := calls ++ [TightLayout] in
      match savefig_name B out_path with
      | Raise e => (Raise e, open_with picture)
      | Ok target =>
          match render_error B target picture with
          | Some e => (Raise e, open_with picture)
          | None =>
              if writable w target then
                (Ok out_path,
                 {| figs := figs w;
                    files := <[target := picture]> (files w);
                    writable := writable w |})
              else (Raise OSError, open_with picture)
          end
      end
  end.

(** The value under ["city"] in a record of [select_cities]. *)
Definition record_name (r : pydict) : pystr :=
  match r !! py "city" with
  | Some (VStr n) => n
  | _ => []
  end.

(** [coordinates_by_name] as the specification words it: the projection of
    [lookup_by_name] onto latitude, longitude and stored name. *)
Definition coordinates_by_name (db : database) (name : pystr)
  : option (float * float * pystr) :=
  (fun c => (c_lat c, c_lng c, c_city c)) <$> get_city_by_name db name.

(** ** Sample data *)

(** A catalog with one city whose name starts with a non-ASCII capital:
    U+00C9 v o r a. *)
Definition evora_stored : pystr := [201; 118; 111; 114; 97].

(** The same name with the first letter in lower case, U+00E9. *)
Definition evora_lower : pystr := [233; 118; 111; 114; 97].

Definition evora_db : database :=
  {| cities := [mkCity 1 evora_stored 38.5 (-7.875) (py "Portugal") 56596];
     users_cities := Some [] |}.

Definition london : CityRow :=
  mkCity 1 (py "London") 51.5 (-0.125) (py "United Kingdom") 11262000.

Definition zurich : CityRow :=
  mkCity 2 (py "Zurich") 47.375 8.5 (py "Switzerland") 436332.

Definition amsterdam : CityRow :=
  mkCity 3 (py "Amsterdam") 52.375 4.875 (py "Netherlands") 1459402.

Definition demo_db : database :=
  {| cities := [london; zurich; amsterdam]; users_cities := Some [] |}.

(** The format matplotlib reads off a file name on a POSIX system,
    [os.path.splitext(name)[1][1:]], found from the end of the name: the
    characters after the last dot of the last path component, when a
    character other than a dot stands before that dot in the component. *)
Fixpoint has_stem (r : pystr) : bool :=
  match r with
  | [] => false
  | c :: r' => if c =? 47 then false else if c =? 46 then has_stem r' else true
  end.

Fixpoint format_rev (r acc : pystr) : pystr :=
  match r with
  | [] => []
  | c :: r' =>
      if c =? 47 then []
      else if c =? 46 then (if has_stem r' then acc else [])
      else format_rev r' (c :: acc)
  end.

Definition format_of_name (name : pystr) : pystr := format_rev (reverse name) [].

Fixpoint lstrip_dots (s : pystr) : pystr :=
  match s with
  | [] => []
  | c :: s' => if c =? 46 then lstrip_dots s' else s
  end.

(** The formats of the Agg canvas. *)
Definition agg_formats : list pystr :=
  py <$> ["eps"; "jpeg"; "jpg"; "pdf"; "pgf"; "png"; "ps"; "raw"; "rgba";
          "svg"; "svgz"; "tif"; "tiff"; "webp"]%string.

(** The file matplotlib writes for a name: a name without a format gets
    [".png"] after its trailing dots are dropped; a name with a format of the
    canvas is used as it is; any other format is refused. *)
Definition demo_savefig_name (name : pystr) : result pystr :=
  match format_of_name name with
  | [] => Ok (reverse (lstrip_dots (reverse name)) ++ py ".png")
  | c :: fmt =>
      if bool_decide (sqlite_lower (c :: fmt) ∈ agg_formats) then Ok name
      else Raise ValueError
  end.

(** The outside world of the examples: no string parses as a float, every
    float prints as ["?"]; every figure can be laid out and rasterised, and
    file names are settled as above. *)
Definition demo_builtins : builtins :=
  {| float_of_str := fun _ => None;
     str_of_float := fun _ => py "?";
     layout_error := fun _ => None;
     savefig_name := demo_savefig_name;
     render_error := fun _ _ => None |}.

(** No figure is open, no file is written yet, every file can be written. *)
Definition empty_world : world :=
  {| figs := []; files := ∅; writable := fun _ => true |}.

(** The same, where no file can be written. *)
Definition readonly_world : world :=
  {| figs := []; files := ∅; writable := fun _ => false |}.

(** [{"lat": 10.0}] *)
Definition lat_only : pydict := <[py "lat" := VFloat 10]> ∅.

(** [{"lat": 10.0, "lon": 20.0}] *)
Definition unnamed_point : pydict :=
  <[py "lat" := VFloat 10]> (<[py "lon" := VFloat 20]> ∅).

(** [{"city": "X", "lat": 10.0, "lon": 20.0}] *)
Definition named_point : pydict :=
  <[py "city" := VStr (py "X")]> unnamed_point.

(** ** States of the favorites table

    The databases the program can be in: [create_user_table] has run on a
    database without the table, and [add_city] has returned any number of
    times since. *)
Inductive reachable (cs : list CityRow) : database -> Prop :=
  | reach_created (db : database) :
      cities db = cs -> users_cities db = None ->
      reachable cs (create_user_table db)
  | reach_added (db db' : database) (u : Z) (s : pystr) (r : bool) :
      reachable cs db -> add_city db u s = Ok (r, db') ->
      reachable cs db'.

(** A catalog with two rows named London; the lookup sees the first. *)
Definition london_ontario : CityRow :=
  mkCity 4 (py "London") 42.984375 (-81.25) (py "Canada") 383822.

Definition two_londons_db : database :=
  {| cities := [zurich; london; london_ontario]; users_cities := None |}.

(** ** [create_grapf] and [draw_distance] *)

(** The alias kept for a misspelt caller. *)
Definition create_grapf (B : builtins) (out_path : pystr)
    (cities : list pydict) : M pystr :=
  create_graph B out_path cities.

(** [draw_distance] makes calls that [create_graph] does not make: a line
    through two points, two markers without a line, and text at font size
    8.  Its figures therefore hold their own kind of call; the registry of
    figures and the file system work as above.  The function takes no
    conversions from outside, so what matplotlib decides about these
    figures is part of the world it runs in. *)
Module Distance.

Inductive call : Type :=
  | SetGlobal
  | AddFeature (f : feature)
  | PlotLine (lons lats : list float)
  | PlotMarkers (lons lats : list float)
  | Text8 (x y : float) (s : pystr)
  | TightLayout.

Record world : Type := World {
  figs : list (nat * list call);
  files : gmap pystr (list call);
  writable : pystr -> bool;
  layout_error : list call -> option exn;
  savefig_name : pystr -> result pystr;
  render_error : pystr -> list call -> option exn
}.

Definition M (A : Type) : Type := world -> result A * world.

#[global] Instance M_ret : MRet M := fun A (a : A) w => (Ok a, w).

#[global] Instance M_bind : MBind M := fun A B (f : A -> M B) (m : M A) w =>
  match m w with
  | (Ok a, w') => f a w'
  | (Raise e, w') => (Raise e, w')
  end.

Definition set_figs (w : world) (fs : list (nat * list call)) : world :=
  {| figs := fs; files := files w; writable := writable w;
     layout_error := layout_error w; savefig_name := savefig_name w;
     render_error := render_error w |}.

Definition plt_figure : M nat := fun w =>
  let n := S (max_list (fst <$> figs w)) in
  (Ok n, set_figs w (figs w ++ [(n, [])])).

Definition plt_gcf : M nat := fun w =>
  match last (figs w) with
  | Some (n, _) => (Ok n, w)
  | None => plt_figure w
  end.

Definition plt_axes : M nat := plt_gcf.

Definition ax_call (ax : nat) (d : call) : M unit := fun w =>
  (Ok tt,
   set_figs w
     ((fun f : nat * list call =>
         if bool_decide (f.1 = ax) then (f.1, f.2 ++ [d]) else f) <$> figs w)).

Definition figure_calls (w : world) (fig : nat) : list call :=
  default [] (snd <$> head (filter (fun f => f.1 = fig) (figs w))).

Definition layout_figure (fig : nat) : M unit := fun w =>
  match layout_error w (figure_calls w fig) with
  | Some e => (Raise e, w)
  | None => ax_call fig TightLayout w
  end.

Definition plt_tight_layout : M unit :=
  fig ← plt_gcf; layout_figure fig.

Definition write_figure (fig : nat) (out_path : pystr) : M unit := fun w =>
  match savefig_name w out_path with
  | Raise e => (Raise e, w)
  | Ok target =>
      let picture := figure_calls w fig in
      match render_error w target picture with
      | Some e => (Raise e, w)
      | None =>
          if writable w target then
            (Ok tt,
             {| figs := figs w;
                files := <[target := picture]> (files w);
                writable := writable w;
                layout_error := layout_error w;
                savefig_name := savefig_name w;
                render_error := render_error w |})
          else (Raise OSError, w)
      end
  end.

Definition plt_savefig (out_path : pystr) : M unit :=
  fig ← plt_gcf; write_figure fig out_path.

Definition plt_close (fig : nat) : M unit := fun w =>
  (Ok tt, set_figs w (filter (fun f => f.1 <> fig) (figs w))).

Definition draw_distance (db : database) (city1 city2 out_path : pystr)
  : M (option pystr) :=
  let c1 := get_coords_by_name db city1 in
  let c2 := get_coords_by_name db city2 in
  match c1, c2 with
  | Some (lat1, lon1, name1), Some (lat2, lon2, name2) =>
      fig ← plt_figure;
      ax ← plt_axes;
      _ ← ax_call ax SetGlobal;
      _ ← ax_call ax (AddFeature LAND);
      _ ← ax_call ax (AddFeature OCEAN);
      _ ← ax_call ax (AddFeature COASTLINE);
      _ ← ax_call ax (AddFeature BORDERS);
      _ ← ax_call ax (PlotLine [lon1; lon2] [lat1; lat2]);
      _ ← ax_call ax (PlotMarkers [lon1; lon2] [lat1; lat2]);
      _ ← ax_call ax (Text8 (lon1 + 1)%float (lat1 + 1)%float name1);
      _ ← ax_call ax (Text8 (lon2 + 1)%float (lat2 + 1)%float name2);
      _ ← plt_tight_layout;
      _ ← plt_savefig out_path;
      _ ← plt_close fig;
      mret (Some out_path)
  | _, _ => mret None
  end.

(** The calls of a route between two rows of the catalog, up to the layout
    call. *)
Definition route (c1 c2 : CityRow) : list call :=
  [SetGlobal; AddFeature LAND; AddFeature OCEAN; AddFeature COASTLINE;
   AddFeature BORDERS;
   PlotLine [c_lng c1; c_lng c2] [c_lat c1; c_lat c2];
   PlotMarkers [c_lng c1; c_lng c2] [c_lat c1; c_lat c2];
   Text8 (c_lng c1 + 1)%float (c_lat c1 + 1)%float (c_city c1);
   Text8 (c_lng c2 + 1)%float (c_lat c2 + 1)%float (c_city c2)].

(** The library and the file system accept a figure that received
    [calls]. *)
Definition accepts (w : world) (out_path target : pystr) (calls : list call)
  : Prop :=
  layout_error w calls = None
  /\ savefig_name w out_path = Ok target
  /\ render_error w target (calls ++ [TightLayout]) = None
  /\ writable w target = true.

(** The end of the call, from [plt.tight_layout()] on, for the figure [n]
    that the call opened in [w] and that received [calls]. *)
Definition finish (out_path : pystr) (w : world) (n : nat)
    (calls : list call) : result (option pystr) * world :=
  match layout_error w calls with
  | Some e => (Raise e, set_figs w (figs w ++ [(n, calls)]))
  | None =>
      let picture := calls ++ [TightLayout] in
      match savefig_name w out_path with
      | Raise e => (Raise e, set_figs w (figs w ++ [(n, picture)]))
      | Ok target =>
          match render_error w target picture with
          | Some e => (Raise e, set_figs w (figs w ++ [(n, picture)]))
          | None =>
              if writable w target then
                (Ok (Some out_path),
                 {| figs := figs w;
                    files := <[target := picture]> (files w);
                    writable := writable w;
                    layout_error := layout_error w;
                    savefig_name := savefig_name w;
                    render_error := render_error w |})
              else (Raise OSError, set_figs w (figs w ++ [(n, picture)]))
          end
      end
  end.

(** No figure is open, no file is written yet, every file can be written,
    every figure can be laid out and rasterised. *)
Definition empty_world : world :=
  {| figs := []; files := ∅; writable := fun _ => true;
     layout_error := fun _ => None;
     savefig_name := demo_savefig_name;
     render_error := fun _ _ => None |}.

End Distance.

(** ** The chat handlers ([src/bot.py]) *)

From Stdlib Require Import DecimalString.

(** A string literal of the source, read as UTF-8, as a Python string. *)
Fixpoint utf8 (bytes : list N) : pystr :=
  match bytes with
  | [] => []
  | b0 :: r0 =>
      if b0 <? 128 then b0 :: utf8 r0
      else
        match r0 with
        | [] => []
        | b1 :: r1 =>
            if b0 <? 224 then ((b0 - 192) * 64 + (b1 - 128)) :: utf8 r1
            else
              match r1 with
              | [] => []
              | b2 :: r2 =>
                  if b0 <? 240 then
                    ((b0 - 224) * 4096 + (b1 - 128) * 64 + (b2 - 128))
                    :: utf8 r2
                  else
                    match r2 with
                    | [] => []
                    | b3 :: r3 =>
                        ((b0 - 240) * 262144 + (b1 - 128) * 4096
                         + (b2 - 128) * 64 + (b3 - 128)) :: utf8 r3
                    end
              end
        end
  end.

Definition lit (s : string) : pystr := utf8 (py s).

(** [str(n)] for an integer. *)
Definition str_of_int (n : Z) : pystr :=
  py (NilZero.string_of_int (Z.to_int n)).

(** The first word of a string that starts with it, and what follows. *)
Fixpoint take_word (s : pystr) : pystr * pystr :=
  match s with
  | [] => ([], [])
  | c :: s' =>
      if isspace c then ([], s)
      else let r := take_word s' in (c :: r.1, r.2)
  end.

(** [s.split(maxsplit=1)]: the first word and, when something other than
    white space follows it, the rest of the string from its first
    character that is not white space. *)
Definition split_maxsplit1 (s : pystr) : list pystr :=
  match lstrip s with
  | [] => []
  | _ :: _ =>
      let r := take_word (lstrip s) in
      match lstrip r.2 with
      | [] => [r.1]
      | _ :: _ => [r.1; lstrip r.2]
      end
  end.

(** What a handler can raise: the exceptions of [logic.py], and the
    [IndexError] of a list index out of range. *)
Inductive bot_exn : Type :=
  | IndexError
  | Raised (e : exn).

Inductive outcome (A : Type) : Type :=
  | Returned (a : A)
  | Failed (e : bot_exn).
Arguments Returned {A} a.
Arguments Failed {A} e.

Definition _city_from_text (text : pystr) : outcome pystr :=
  match text with
  | [] => Returned []
  | _ :: _ =>
      let parts := split_maxsplit1 text in
      if bool_decide (length parts = 1%nat) then Returned []
      else
        match parts !! 1%nat with
        | Some p => Returned (strip p)
        | None => Failed IndexError
        end
  end.

(** The fields of a Telegram message the handlers read. *)
Record message : Type := Message {
  msg_chat_id : Z;
  msg_from_user_id : Z;
  msg_text : option pystr
}.

(** What the bot has sent: [send_message(chat_id, text)], and
    [send_photo(chat_id, img)] with the picture read from the file.  The
    calls to Telegram are taken to succeed. *)
Inductive sent : Type :=
  | SendMessage (chat_id : Z) (text : pystr)
  | SendPhoto (chat_id : Z) (photo : list draw).

(** The process: the database behind [manager], pyplot with the file
    system, and the messages sent so far. *)
Record bot : Type := Bot {
  bot_db : database;
  bot_world : world;
  bot_sent : list sent
}.

Definition send (s : sent) (st : bot) : bot :=
  {| bot_db := bot_db st; bot_world := bot_world st;
     bot_sent := bot_sent st ++ [s] |}.

Definition text_start : pystr :=
  lit "Привет! Я бот-картограф. Умею показывать города на карте и запоминать их."
  ++ [10] ++ lit "Напиши /help для списка команд.".

Definition text_help : pystr :=
  lit "Доступные команды:" ++ [10]
  ++ lit "/show_city <город на английском> — показать город на карте" ++ [10]
  ++ lit "/remember_city <город на английском> — сохранить город" ++ [10]
  ++ lit "/show_my_cities — показать все сохранённые города" ++ [10].

Definition text_format_show_city : pystr :=
  lit "Формат: /show_city <city_name> (например, /show_city London)".

Definition text_unknown_city : pystr :=
  lit "Такого города я не знаю. Убедись, что он написан на английском!".

Definition text_format_remember_city : pystr :=
  lit "Формат: /remember_city <city_name>".

(** [f"Город {city_name} успешно сохранён!"] *)
Definition text_saved (city_name : pystr) : pystr :=
  lit "Город " ++ city_name ++ lit " успешно сохранён!".

Definition text_no_cities : pystr :=
  lit "Пока нет сохранённых городов. Добавь через /remember_city <city_name>.".

Definition handle_start (m : message) (st : bot) : outcome unit * bot :=
  (Returned tt, send (SendMessage (msg_chat_id m) text_start) st).

Definition handle_help (m : message) (st : bot) : outcome unit * bot :=
  (Returned tt, send (SendMessage (msg_chat_id m) text_help) st).

(** [with open(img_path, "rb") as img: bot.send_photo(chat_id, img)] *)
Definition send_photo_file (chat_id : Z) (img_path : pystr) (st : bot)
  : outcome unit * bot :=
  match files (bot_world st) !! img_path with
  | Some photo => (Returned tt, send (SendPhoto chat_id photo) st)
  | None => (Failed (Raised OSError), st)
  end.

(** [manager.create_graph(path, cities)] followed by sending the file. *)
Definition render_and_send (B : builtins) (chat_id : Z) (path : pystr)
    (cities : list pydict) (st : bot) : outcome unit * bot :=
  match create_graph B path cities (bot_world st) with
  | (Raise e, w') =>
      (Failed (Raised e),
       {| bot_db := bot_db st; bot_world := w'; bot_sent := bot_sent st |})
  | (Ok img_path, w') =>
      send_photo_file chat_id img_path
        {| bot_db := bot_db st; bot_world := w'; bot_sent := bot_sent st |}
  end.

Definition handle_show_city (B : builtins) (m : message) (st : bot)
  : outcome unit * bot :=
  match _city_from_text (default [] (msg_text m)) with
  | Failed e => (Failed e, st)
  | Returned [] =>
      (Returned tt, send (SendMessage (msg_chat_id m) text_format_show_city) st)
  | Returned city_name =>
      match get_coords_by_name (bot_db st) city_name with
      | None =>
          (Returned tt, send (SendMessage (msg_chat_id m) text_unknown_city) st)
      | Some (lat, lon, name) =>
          let path :=
            py "map_" ++ str_of_int (msg_chat_id m) ++ py "_single.png" in
          render_and_send B (msg_chat_id m) path
            [<[py "city" := VStr name]>
               (<[py "lat" := VFloat lat]> (<[py "lon" := VFloat lon]> ∅))]
            st
      end
  end.

Definition handle_remember_city (m : message) (st : bot)
  : outcome unit * bot :=
  match _city_from_text (default [] (msg_text m)) with
  | Failed e => (Failed e, st)
  | Returned [] =>
      (Returned tt,
       send (SendMessage (msg_chat_id m) text_format_remember_city) st)
  | Returned city_name =>
      match add_city (bot_db st) (msg_from_user_id m) city_name with
      | Raise e => (Failed (Raised e), st)
      | Ok (true, db') =>
          (Returned tt,
           send (SendMessage (msg_chat_id m) (text_saved city_name))
             {| bot_db := db'; bot_world := bot_world st;
                bot_sent := bot_sent st |})
      | Ok (false, db') =>
          (Returned tt,
           send (SendMessage (msg_chat_id m) text_unknown_city)
             {| bot_db := db'; bot_world := bot_world st;
                bot_sent := bot_sent st |})
      end
  end.

Definition handle_show_my_cities (B : builtins) (m : message) (st : bot)
  : outcome unit * bot :=
  match select_cities (bot_db st) (msg_from_user_id m) with
  | Raise e => (Failed (Raised e), st)
  | Ok [] =>
      (Returned tt, send (SendMessage (msg_chat_id m) text_no_cities) st)
  | Ok cities =>
      let path := py "map_" ++ str_of_int (msg_chat_id m) ++ py "_all.png" in
      render_and_send B (msg_chat_id m) path cities st
  end.

(** A process on the sample catalog with the table created, nothing
    rendered and nothing sent. *)
Definition demo_bot : bot :=
  {| bot_db := demo_db; bot_world := empty_world; bot_sent := [] |}.

(** * Properties *)

(** ** Strings *)

Section Strings.

Lemma isspace_spec (c : N) :
  isspace c = true <->
  (9 <= c <= 13) \/ (28 <= c <= 32) \/ c = 133 \/ c = 160 \/ c = 5760
  \/ (8192 <= c <= 8202) \/ c = 8232 \/ c = 8233 \/ c = 8239 \/ c = 8287
  \/ c = 12288.
Proof.
  unfold isspace.
  rewrite !orb_true_iff, !andb_true_iff, !N.leb_le, !N.eqb_eq. tauto.
Qed.

Lemma is_ascii_upper_spec (c : N) : is_ascii_upper c = true <-> 65 <= c <= 90.
Proof. unfold is_ascii_upper. rewrite andb_true_iff, !N.leb_le. tauto. Qed.

Lemma isspace_letter (c : N) : 65 <= c <= 122 -> isspace c = false.
Proof.
  intros Hc. destruct (isspace c) eqn:E; [|done].
  apply isspace_spec in E. lia.
Qed.

(** White space has no case: case variants are white space together. *)
Lemma isspace_case (a b : N) : ascii_case_eq a b -> isspace a = isspace b.
Proof.
  intros [->|[[Ha ->]|[Hb ->]]]; [done| |].
  - apply is_ascii_upper_spec in Ha.
    rewrite !isspace_letter by lia. done.
  - apply is_ascii_upper_spec in Hb.
    rewrite !isspace_letter by lia. done.
Qed.

Lemma sqlite_lower_char_case (a b : N) :
  ascii_case_eq a b -> sqlite_lower_char a = sqlite_lower_char b.
Proof.
  unfold sqlite_lower_char.
  intros [->|[[Ha ->]|[Hb ->]]]; [done| |].
  - rewrite Ha. apply is_ascii_upper_spec in Ha.
    destruct (is_ascii_upper (a + 32)) eqn:E; [|done].
    apply is_ascii_upper_spec in E. lia.
  - rewrite Hb. apply is_ascii_upper_spec in Hb.
    destruct (is_ascii_upper (b + 32)) eqn:E; [|done].
    apply is_ascii_upper_spec in E. lia.
Qed.

Lemma sqlite_lower_case (s t : pystr) :
  ascii_case_variant s t -> sqlite_lower s = sqlite_lower t.
Proof.
  induction 1 as [|a b s t Hab _ IH]; [done|].
  unfold sqlite_lower in *. cbn. f_equal; [|exact IH].
  by apply sqlite_lower_char_case.
Qed.

Lemma lstrip_case (s t : pystr) :
  ascii_case_variant s t -> ascii_case_variant (lstrip s) (lstrip t).
Proof.
  induction 1 as [|a b s t Hab Hst IH]; [constructor|].
  cbn. rewrite <- (isspace_case a b Hab).
  destruct (isspace a); [exact IH|]. by constructor.
Qed.

Lemma strip_case (s t : pystr) :
  ascii_case_variant s t -> ascii_case_variant (strip s) (strip t).
Proof.
  intros H. unfold strip, rstrip.
  apply Forall2_reverse, lstrip_case, Forall2_reverse, lstrip_case, H.
Qed.

(** The order on strings is a total order. *)
Lemma str_leb_refl (a : pystr) : str_leb a a = true.
Proof.
  induction a as [|x a IH]; [done|]. cbn.
  rewrite N.ltb_irrefl, N.eqb_refl. exact IH.
Qed.

Lemma str_leb_total (a b : pystr) : str_leb a b = true \/ str_leb b a = true.
Proof.
  revert b. induction a as [|x a IH]; intros [|y b]; cbn; auto.
  destruct (N.ltb_spec x y), (N.ltb_spec y x); auto; try lia.
  assert (x = y) as -> by lia. rewrite N.eqb_refl. apply IH.
Qed.

Lemma str_leb_trans (a b c : pystr) :
  str_leb a b = true -> str_leb b c = true -> str_leb a c = true.
Proof.
  revert b c. induction a as [|x a IH]; intros [|y b] [|z c]; cbn; try done.
  destruct (N.ltb_spec x y), (N.ltb_spec y z), (N.ltb_spec x z);
    try done; try lia;
    destruct (N.eqb_spec x y), (N.eqb_spec y z), (N.eqb_spec x z);
    try done; try lia.
  apply IH.
Qed.

Lemma str_leb_antisym (a b : pystr) :
  str_leb a b = true -> str_leb b a = true -> a = b.
Proof.
  revert b. induction a as [|x a IH]; intros [|y b]; cbn; try done.
  destruct (N.ltb_spec x y), (N.ltb_spec y x),
    (N.eqb_spec x y), (N.eqb_spec y x); try done; try lia.
  subst y. intros H1 H2. f_equal. by apply IH.
Qed.

#[global] Instance str_le_trans : Transitive str_le.
Proof. intros a b c. apply str_leb_trans. Qed.

#[global] Instance str_le_total : Total str_le.
Proof. intros a b. apply str_leb_total. Qed.

#[global] Instance str_le_antisym : AntiSymm (=) str_le.
Proof. intros a b. apply str_leb_antisym. Qed.

#[global] Instance by_city_trans : Transitive by_city.
Proof. intros a b c. apply str_leb_trans. Qed.

#[global] Instance by_city_total : Total by_city.
Proof. intros a b. apply str_leb_total. Qed.

End Strings.

(** ** The catalog *)

Section Catalog.

Lemma name_matches_case (s t : pystr) (c : CityRow) :
  ascii_case_variant s t -> name_matches s c = name_matches t c.
Proof.
  intros H. unfold name_matches. by rewrite (sqlite_lower_case s t H).
Qed.

Lemma get_city_by_name_Some (db : database) (s : pystr) (c : CityRow) :
  get_city_by_name db s = Some c ->
  c ∈ cities db /\ sqlite_lower (c_city c) = sqlite_lower (strip s).
Proof.
  unfold get_city_by_name, fetchone. intros H.
  apply head_Some_elem_of, list_elem_of_filter in H as [Hm Hc].
  split; [exact Hc|]. unfold name_matches in Hm.
  by apply bool_decide_eq_true in Hm.
Qed.

Lemma get_city_by_name_None (db : database) (s : pystr) :
  get_city_by_name db s = None <->
  forall c, c ∈ cities db -> sqlite_lower (c_city c) <> sqlite_lower (strip s).
Proof.
  unfold get_city_by_name, fetchone. rewrite head_None. split.
  - intros Hnil c Hc Hm.
    assert (c ∈ filter (fun c => name_matches (strip s) c = true) (cities db))
      as Hin.
    { apply list_elem_of_filter. split; [|exact Hc].
      unfold name_matches. by apply bool_decide_eq_true. }
    rewrite Hnil in Hin. by apply not_elem_of_nil in Hin.
  - intros Hno.
    destruct (filter _ (cities db)) as [|c l] eqn:E; [done|].
    assert (c ∈ filter (fun c => name_matches (strip s) c = true) (cities db))
      as Hin by (rewrite E; left).
    apply list_elem_of_filter in Hin as [Hm Hc].
    unfold name_matches in Hm. apply bool_decide_eq_true in Hm.
    by destruct (Hno c Hc).
Qed.

Lemma fetchone_fmap {A C : Type} (f : A -> C) (rows : list A) :
  fetchone (f <$> rows) = f <$> fetchone rows.
Proof. by destruct rows. Qed.

End Catalog.

(** Closes a goal [Forall2 _ s t] on two literal strings whose characters
    are related by one of the disjuncts of the relation. *)
Ltac case_variant :=
  unfold ascii_case_variant, unicode_case_variant;
  repeat match goal with
         | |- context [py ?s] =>
             let v := eval vm_compute in (py s) in change (py s) with v
         end;
  repeat first
    [ apply List.Forall2_nil
    | apply List.Forall2_cons;
      [ first [ left; reflexivity
              | left; left; reflexivity
              | right; left; split; reflexivity
              | right; right; split; reflexivity
              | left; right; left; split; reflexivity
              | left; right; right; split; reflexivity ] | ] ].

(** X26. The lookup trims its input and compares it with the stored names
    after folding the ASCII letters A-Z to lower case: two inputs that
    differ only in the case of ASCII letters get the same result; a result
    is a full row of the catalog whose folded name equals the folded,
    trimmed input; and the lookup answers [None] exactly when no stored name
    does. *)
Theorem get_city_by_name_ascii_case_insensitive
    (db : database) (s t : pystr) :
  ascii_case_variant s t ->
  get_city_by_name db s = get_city_by_name db t
  /\ (forall c, get_city_by_name db s = Some c ->
        c ∈ cities db /\ sqlite_lower (c_city c) = sqlite_lower (strip s))
  /\ (get_city_by_name db s = None <->
      forall c, c ∈ cities db ->
        sqlite_lower (c_city c) <> sqlite_lower (strip s)).
Proof.
  intros Hst. split; [|split].
  - unfold get_city_by_name. f_equal.
    apply list_filter_iff. intros c.
    by rewrite (name_matches_case _ _ c (strip_case s t Hst)).
  - apply get_city_by_name_Some.
  - apply get_city_by_name_None.
Qed.

(** The lookup of " London" and of " LONDON" in the sample catalog. *)
Lemma get_city_by_name_ascii_case_insensitive_witness :
  get_city_by_name demo_db (py " London") = get_city_by_name demo_db (py " LONDON")
  /\ (forall c, get_city_by_name demo_db (py " London") = Some c ->
        c ∈ cities demo_db
        /\ sqlite_lower (c_city c) = sqlite_lower (strip (py " London")))
  /\ (get_city_by_name demo_db (py " London") = None <->
      forall c, c ∈ cities demo_db ->
        sqlite_lower (c_city c) <> sqlite_lower (strip (py " London"))).
Proof.
  apply (get_city_by_name_ascii_case_insensitive
           demo_db (py " London") (py " LONDON")).
  case_variant.
Defined.

(** C3. The lookup on the failing input: the catalog holds the name
    U+00C9 "vora"; the lookup finds the row under that spelling and answers
    [None] for the spelling that starts with the lower-case letter U+00E9,
    a case variant of the stored name. *)
Lemma get_city_by_name_latin1_case_sensitive :
  unicode_case_variant evora_stored evora_lower
  /\ get_city_by_name evora_db evora_stored
     = Some (mkCity 1 evora_stored 38.5 (-7.875) (py "Portugal") 56596)
  /\ get_city_by_name evora_db evora_lower = None.
Proof.
  split; [|split].
  - unfold evora_stored, evora_lower. case_variant.
  - vm_compute. reflexivity.
  - vm_compute. reflexivity.
Qed.

(** C5. [get_coords_by_name] is the projection of [get_city_by_name]: it
    answers exactly when the lookup does, with the latitude, longitude and
    stored name of the row the lookup returns. *)
Theorem get_coords_by_name_projection (db : database) (name : pystr) :
  get_coords_by_name db name = coordinates_by_name db name.
Proof.
  unfold get_coords_by_name, coordinates_by_name, get_city_by_name.
  rewrite fetchone_fmap.
  by destruct (fetchone _) as [c|].
Qed.

(** ** The favorites table *)

Section Favorites.

Implicit Types (db : database) (t : list (Z * Z)) (u : Z) (c : CityRow).

Lemma count_NoDup {A : Type} `{EqDecision A} (l : list A) (x : A) :
  NoDup l -> x ∈ l -> length (filter (fun y => y = x) l) = 1%nat.
Proof.
  induction 1 as [|a l Ha Hl IH]; intros Hx.
  - by apply not_elem_of_nil in Hx.
  - rewrite filter_cons. destruct (decide (a = x)) as [->|Hne].
    + cbn. f_equal.
      destruct (filter (fun y => y = x) l) as [|y l'] eqn:E; [done|].
      assert (y ∈ filter (fun y => y = x) l) as Hy by (rewrite E; left).
      apply list_elem_of_filter in Hy as [-> Hy]. done.
    + apply IH. apply elem_of_cons in Hx as [->|Hx]; done.
Qed.

Lemma filter_unique_key {A K : Type} `{EqDecision K} (f : A -> K)
    (l : list A) (x : A) :
  NoDup (f <$> l) -> x ∈ l -> filter (fun y => f y = f x) l = [x].
Proof.
  induction l as [|a l IH]; intros Hnd Hx.
  - by apply not_elem_of_nil in Hx.
  - rewrite fmap_cons in Hnd. apply NoDup_cons in Hnd as [Ha Hnd].
    apply elem_of_cons in Hx as [->|Hx].
    + rewrite filter_cons_True by done. f_equal.
      destruct (filter (fun y => f y = f a) l) as [|y l'] eqn:E; [done|].
      assert (y ∈ filter (fun y => f y = f a) l) as Hy by (rewrite E; left).
      apply list_elem_of_filter in Hy as [Heq Hy].
      destruct Ha. rewrite <- Heq. by apply list_elem_of_fmap_2.
    + rewrite filter_cons_False; [by apply IH|].
      intros Heq. destruct Ha. rewrite Heq. by apply list_elem_of_fmap_2.
Qed.

Lemma filter_fmap_length {A C : Type} (f : A -> C) (P : C -> Prop)
    `{forall y, Decision (P y)} (l : list A) :
  length (filter P (f <$> l)) = length (filter (fun x => P (f x)) l).
Proof.
  induction l as [|a l IH]; [done|].
  rewrite fmap_cons, !filter_cons. destruct (decide (P (f a))); cbn; lia.
Qed.

Lemma sql_insert_ignore t (row : Z * Z) :
  exists t1, sql_insert Ignore row (Some t) = Ok t1
             /\ row ∈ t1 /\ (NoDup t -> NoDup t1)
             /\ sql_insert Ignore row (Some t1) = Ok t1.
Proof.
  unfold sql_insert. destruct (bool_decide (row ∈ t)) eqn:E.
  - apply bool_decide_eq_true in E. exists t.
    rewrite (bool_decide_eq_true_2 _ E). done.
  - apply bool_decide_eq_false in E. exists (t ++ [row]).
    assert (row ∈ t ++ [row]) as Hin by (apply elem_of_app; right; left).
    rewrite (bool_decide_eq_true_2 _ Hin). split_and!; try done.
    intros Hnd. apply NoDup_app. split_and!; [done| |apply NoDup_singleton].
    intros x Hx ->%list_elem_of_singleton. done.
Qed.

Lemma elem_of_favorites_join (cs : list CityRow) t u (r : fav_row) :
  r ∈ favorites_join cs t u <->
  exists c, c ∈ cs /\ (u, c_id c) ∈ t /\ r = fav_columns c.
Proof.
  unfold favorites_join. rewrite list_elem_of_bind. split.
  - intros ([u' cid] & Hr & Huc).
    apply list_elem_of_filter in Huc as [Hu Huc]. cbn in Hu. subst u'.
    apply list_elem_of_fmap in Hr as (c & -> & Hc).
    apply list_elem_of_filter in Hc as [Hid Hc]. cbn in Hid. subst cid.
    by exists c.
  - intros (c & Hc & Huc & ->). exists (u, c_id c). split.
    + apply list_elem_of_fmap. exists c. split; [done|].
      by apply list_elem_of_filter.
    + by apply list_elem_of_filter.
Qed.

(** With unique names in the catalog, the rows of one favorite that carry
    the name of [c] are the single row of [c], or none. *)
Lemma join_rows_named (cs : list CityRow) c (cid : Z) :
  NoDup (c_city <$> cs) -> c ∈ cs ->
  length (filter (fun r => fav_city r = c_city c)
            (fav_columns <$> filter (fun c' => c_id c' = cid) cs))
  = if decide (c_id c = cid) then 1%nat else 0%nat.
Proof.
  intros Hnd Hc.
  rewrite (filter_fmap_length fav_columns (fun r => fav_city r = c_city c)).
  rewrite list_filter_filter.
  rewrite (list_filter_iff _ (fun c' => c_id c' = cid /\ c_city c' = c_city c))
    by (intros c'; cbn; tauto).
  rewrite <- list_filter_filter.
  rewrite (filter_unique_key c_city cs c Hnd Hc).
  rewrite filter_cons, filter_nil. by destruct (decide (c_id c = cid)).
Qed.

Lemma join_count_named (cs : list CityRow) c u (l : list (Z * Z)) :
  NoDup (c_city <$> cs) -> c ∈ cs ->
  length (filter (fun r => fav_city r = c_city c) (favorites_join cs l u))
  = length (filter (fun row => row = (u, c_id c)) l).
Proof.
  intros Hnd Hc. unfold favorites_join.
  induction l as [|[u' cid] l IH]; [done|].
  rewrite (filter_cons (fun row => row = (u, c_id c))).
  rewrite (filter_cons (fun uc : Z * Z => uc.1 = u)). cbn [fst].
  destruct (decide (u' = u)) as [->|Hu].
  - rewrite bind_cons, filter_app, length_app, IH. cbn [snd].
    rewrite (join_rows_named cs c cid Hnd Hc).
    destruct (decide (c_id c = cid)) as [<-|Hid].
    + rewrite decide_True by done. cbn. lia.
    + rewrite decide_False by congruence. cbn. lia.
  - rewrite IH. rewrite decide_False by congruence. done.
Qed.

Lemma record_name_city_record (r : fav_row) :
  record_name (city_record r) = fav_city r.
Proof.
  unfold record_name, city_record. by rewrite lookup_insert_eq.
Qed.

Lemma city_record_lon (r : fav_row) :
  city_record r !! py "lon" = Some (VFloat r.1.2).
Proof.
  unfold city_record.
  rewrite !lookup_insert_ne by (intros H; vm_compute in H; discriminate H).
  by rewrite lookup_insert_eq.
Qed.

Lemma city_record_lng (r : fav_row) :
  city_record r !! py "lng" = Some (VFloat r.1.2).
Proof.
  unfold city_record.
  rewrite !lookup_insert_ne by (intros H; vm_compute in H; discriminate H).
  by rewrite lookup_insert_eq.
Qed.

Lemma city_record_fields (r : fav_row) :
  city_record r !! py "city" = Some (VStr r.1.1.1)
  /\ city_record r !! py "lat" = Some (VFloat r.1.1.2)
  /\ city_record r !! py "country" = Some (VStr r.2).
Proof. destruct r as [[[name lat] lng] country]. by vm_compute. Qed.

Lemma record_names_rows (rows : list fav_row) :
  record_name <$> (city_record <$> rows) = fav_city <$> rows.
Proof.
  rewrite <- list_fmap_compose. apply list_fmap_ext.
  intros i r _. apply record_name_city_record.
Qed.

(** The primary key is established by [create_user_table] and kept by
    [add_city]. *)
Lemma create_user_table_key db :
  users_cities_key db -> users_cities_key (create_user_table db)
  /\ is_Some (users_cities (create_user_table db)).
Proof.
  unfold users_cities_key, create_user_table.
  destruct (users_cities db) as [t|] eqn:E; cbn; rewrite ?E; [by eauto|].
  intros _. split; [constructor|by eauto].
Qed.

Lemma add_city_key db u (s : pystr) (r : bool) db' :
  users_cities_key db -> add_city db u s = Ok (r, db') ->
  users_cities_key db'.
Proof.
  unfold users_cities_key, add_city.
  destruct (get_city_by_name db s) as [c|]; [|by intros ? [= _ <-]].
  destruct (users_cities db) as [t|] eqn:E; [|done].
  destruct (sql_insert_ignore t (u, c_id c)) as (t1 & -> & _ & Hnd & _).
  intros Ht [= _ <-]. cbn. auto.
Qed.

(** A plain [INSERT] of a stored pair is refused by the primary key. *)
Lemma sql_insert_abort_duplicate t (row : Z * Z) :
  row ∈ t -> sql_insert Abort row (Some t) = Raise IntegrityError.
Proof. intros H. unfold sql_insert. by rewrite bool_decide_eq_true_2. Qed.

End Favorites.

(** C1. When the catalog lookup resolves no city, [add_city] returns
    [False] and changes nothing: the database it leaves is the one it was
    given, so [users_cities] and the answer of [select_cities] are the same
    before and after. *)
Theorem add_city_unknown_city (db : database) (u : Z) (s : pystr) :
  get_city_by_name db s = None ->
  exists db',
    add_city db u s = Ok (false, db')
    /\ db' = db
    /\ users_cities db' = users_cities db
    /\ select_cities db' u = select_cities db u.
Proof.
  intros Hnone. exists db. unfold add_city. rewrite Hnone. done.
Qed.

(** A name the sample catalog does not hold. *)
Lemma add_city_unknown_city_witness :
  exists db',
    add_city demo_db 7 (py "Nonexistent City") = Ok (false, db')
    /\ db' = demo_db
    /\ users_cities db' = users_cities demo_db
    /\ select_cities db' 7 = select_cities demo_db 7.
Proof.
  apply (add_city_unknown_city demo_db 7 (py "Nonexistent City")).
  vm_compute. reflexivity.
Defined.

(** C2. [add_city] is idempotent.  On a table that respects its primary
    key, and for a name the catalog resolves to the row [c], the first call
    returns [True]; a second call returns [True] as well (the insert is
    ignored, no [IntegrityError] is raised) and leaves the database as the
    first call left it; the table then holds the pair of the user and the
    id of [c] exactly once; and, in a catalog of unique names,
    [select_cities] lists exactly one record under the name of [c]. *)
Theorem add_city_idempotent
    (db : database) (t : list (Z * Z)) (u : Z) (s : pystr) (c : CityRow) :
  users_cities db = Some t ->
  NoDup t ->
  get_city_by_name db s = Some c ->
  exists db1 t1,
    add_city db u s = Ok (true, db1)
    /\ add_city db1 u s = Ok (true, db1)
    /\ users_cities db1 = Some t1
    /\ NoDup t1
    /\ length (filter (fun row => row = (u, c_id c)) t1) = 1%nat
    /\ exists recs,
         select_cities db1 u = Ok recs
         /\ city_record (fav_columns c) ∈ recs
         /\ (NoDup (c_city <$> cities db) ->
             length (filter (fun r => record_name r = c_city c) recs)
             = 1%nat).
Proof.
  intros Ht Hnd Hc.
  destruct (sql_insert_ignore t (u, c_id c)) as (t1 & Hins & Hin & Hnd1 & Hins1).
  exists {| cities := cities db; users_cities := Some t1 |}, t1.
  assert (length (filter (fun row => row = (u, c_id c)) t1) = 1%nat) as Hcount
    by (apply count_NoDup; auto).
  split_and!.
  - unfold add_city. by rewrite Hc, Ht, Hins.
  - unfold add_city.
    change (get_city_by_name {| cities := cities db; users_cities := Some t1 |} s)
      with (get_city_by_name db s).
    rewrite Hc. cbn [users_cities cities]. by rewrite Hins1.
  - done.
  - auto.
  - exact Hcount.
  - pose proof Hc as [Hcs _]%get_city_by_name_Some.
    eexists. split; [reflexivity|]. cbn [cities]. split.
    { apply list_elem_of_fmap_2.
      rewrite (merge_sort_Permutation by_city).
      apply elem_of_favorites_join. by exists c. }
    intros Hnames.
    rewrite (filter_fmap_length city_record (fun n => record_name n = c_city c)).
    rewrite (list_filter_iff _ (fun r => fav_city r = c_city c))
      by (intros r; by rewrite record_name_city_record).
    rewrite (merge_sort_Permutation by_city).
    by rewrite join_count_named.
Qed.

(** London is added twice for user 7 on the sample catalog. *)
Lemma add_city_idempotent_witness :
  exists db1 t1,
    add_city demo_db 7 (py "London") = Ok (true, db1)
    /\ add_city db1 7 (py "London") = Ok (true, db1)
    /\ users_cities db1 = Some t1
    /\ NoDup t1
    /\ length (filter (fun row => row = (7%Z, c_id london)) t1) = 1%nat
    /\ exists recs,
         select_cities db1 7 = Ok recs
         /\ city_record (fav_columns london) ∈ recs
         /\ (NoDup (c_city <$> cities demo_db) ->
             length (filter (fun r => record_name r = c_city london) recs)
             = 1%nat).
Proof.
  apply (add_city_idempotent demo_db [] 7 (py "London") london).
  - reflexivity.
  - constructor.
  - vm_compute. reflexivity.
Defined.



(** Zurich is added first and Amsterdam second; Amsterdam is listed
    first. *)
Example zurich_then_amsterdam :
  exists db1 db2 recs,
    add_city demo_db 7 (py "Zurich") = Ok (true, db1)
    /\ add_city db1 7 (py "Amsterdam") = Ok (true, db2)
    /\ users_cities db2 = Some [(7, 2); (7, 3)]%Z
    /\ select_cities db2 7 = Ok recs
    /\ record_name <$> recs = [py "Amsterdam"; py "Zurich"].
Proof.
  do 3 eexists. split_and!; vm_compute; reflexivity.
Qed.

(** C9. Every record of [select_cities] is the record of a catalog row the
    user has stored: it carries the name, the latitude and the country of
    that row, and the stored longitude of that same row under both ["lon"]
    and ["lng"].  Every stored row has such a record. *)
Theorem select_cities_lon_lng (db : database) (t : list (Z * Z)) (u : Z) :
  users_cities db = Some t ->
  exists recs,
    select_cities db u = Ok recs
    /\ Forall (fun r : pydict =>
                 exists c, c ∈ cities db /\ (u, c_id c) ∈ t
                   /\ r !! py "city" = Some (VStr (c_city c))
                   /\ r !! py "lat" = Some (VFloat (c_lat c))
                   /\ r !! py "country" = Some (VStr (c_country c))
                   /\ r !! py "lon" = Some (VFloat (c_lng c))
                   /\ r !! py "lng" = Some (VFloat (c_lng c))) recs
    /\ (forall c, c ∈ cities db -> (u, c_id c) ∈ t ->
          exists r, r ∈ recs
            /\ r !! py "city" = Some (VStr (c_city c))
            /\ r !! py "lat" = Some (VFloat (c_lat c))
            /\ r !! py "country" = Some (VStr (c_country c))
            /\ r !! py "lon" = Some (VFloat (c_lng c))
            /\ r !! py "lng" = Some (VFloat (c_lng c))).
Proof.
  intros Ht. unfold select_cities. rewrite Ht. eexists.
  split; [reflexivity|]. split.
  - apply Forall_fmap, Forall_forall. intros row Hrow.
    rewrite (merge_sort_Permutation by_city) in Hrow.
    apply elem_of_favorites_join in Hrow as (c & Hc & Huc & ->).
    exists c.
    destruct (city_record_fields (fav_columns c)) as (Hcity & Hlat & Hcountry).
    split_and!; [done|done|done|done|done| |].
    + exact (city_record_lon (fav_columns c)).
    + exact (city_record_lng (fav_columns c)).
  - intros c Hc Huc. exists (city_record (fav_columns c)).
    destruct (city_record_fields (fav_columns c)) as (Hcity & Hlat & Hcountry).
    split_and!; [|done|done|done| |].
    + apply list_elem_of_fmap. exists (fav_columns c). split; [done|].
      rewrite (merge_sort_Permutation by_city).
      apply elem_of_favorites_join. by exists c.
    + exact (city_record_lon (fav_columns c)).
    + exact (city_record_lng (fav_columns c)).
Qed.

(** The two records of user 7: Amsterdam, then Zurich, each with its own
    longitude under both keys. *)
Lemma select_cities_lon_lng_witness :
  exists recs,
    select_cities
      {| cities := cities demo_db; users_cities := Some [(7, 2); (7, 3)]%Z |} 7
    = Ok recs
    /\ Forall (fun r : pydict =>
                 exists c, c ∈ cities demo_db
                   /\ (7%Z, c_id c) ∈ [(7, 2); (7, 3)]%Z
                   /\ r !! py "city" = Some (VStr (c_city c))
                   /\ r !! py "lat" = Some (VFloat (c_lat c))
                   /\ r !! py "country" = Some (VStr (c_country c))
                   /\ r !! py "lon" = Some (VFloat (c_lng c))
                   /\ r !! py "lng" = Some (VFloat (c_lng c))) recs
    /\ (forall c, c ∈ cities demo_db -> (7%Z, c_id c) ∈ [(7, 2); (7, 3)]%Z ->
          exists r, r ∈ recs
            /\ r !! py "city" = Some (VStr (c_city c))
            /\ r !! py "lat" = Some (VFloat (c_lat c))
            /\ r !! py "country" = Some (VStr (c_country c))
            /\ r !! py "lon" = Some (VFloat (c_lng c))
            /\ r !! py "lng" = Some (VFloat (c_lng c))).
Proof.
  apply (select_cities_lon_lng
           {| cities := cities demo_db;
              users_cities := Some [(7, 2); (7, 3)]%Z |}
           [(7, 2); (7, 3)]%Z 7).
  reflexivity.
Defined.

(** ** The renderer *)

Section Renderer.

Variable B : builtins.

Implicit Types (w : world) (F : list (nat * list draw)) (ds : list draw)
  (n : nat).

Lemma M_bind_unfold {A C : Type} (m : M A) (f : A -> M C) w :
  (m ≫= f) w =
  match m w with
  | (Ok a, w') => f a w'
  | (Raise e, w') => (Raise e, w')
  end.
Proof. reflexivity. Qed.

(** The number [plt.figure] picks is not in use. *)
Lemma fresh_figure F : S (max_list (fst <$> F)) ∉ fst <$> F.
Proof. apply max_list_not_elem_of_gt. lia. Qed.

Lemma fmap_other_figures F (n : nat) (d : draw) :
  n ∉ fst <$> F ->
  (fun f : nat * list draw =>
     if bool_decide (f.1 = n) then (f.1, f.2 ++ [d]) else f) <$> F = F.
Proof.
  induction F as [|f F IH]; [done|]. rewrite fmap_cons, not_elem_of_cons.
  intros [Hf HF]. rewrite !fmap_cons, IH by done.
  by rewrite bool_decide_eq_false_2 by done.
Qed.

Lemma filter_other_figures F (n : nat) :
  n ∉ fst <$> F -> filter (fun f : nat * list draw => f.1 <> n) F = F.
Proof.
  induction F as [|f F IH]; [done|]. rewrite fmap_cons, not_elem_of_cons.
  intros [Hf HF]. rewrite filter_cons_True by done. by rewrite IH.
Qed.

Lemma filter_this_figure F (n : nat) :
  n ∉ fst <$> F -> filter (fun f : nat * list draw => f.1 = n) F = [].
Proof.
  induction F as [|f F IH]; [done|]. rewrite fmap_cons, not_elem_of_cons.
  intros [Hf HF]. rewrite filter_cons_False by done. by apply IH.
Qed.

(** The world while figure [n] is being drawn. *)
Let drawing w (n : nat) ds : world :=
  {| figs := figs w ++ [(n, ds)]; files := files w; writable := writable w |}.

Lemma plt_figure_unfold w :
  plt_figure w = (Ok (S (max_list (fst <$> figs w))),
                  drawing w (S (max_list (fst <$> figs w))) []).
Proof. reflexivity. Qed.

Lemma plt_gcf_unfold w n ds : plt_gcf (drawing w n ds) = (Ok n, drawing w n ds).
Proof. unfold plt_gcf, drawing. cbn [figs]. by rewrite last_snoc. Qed.

Lemma ax_call_unfold w n ds (d : draw) :
  n ∉ fst <$> figs w ->
  ax_call n d (drawing w n ds) = (Ok tt, drawing w n (ds ++ [d])).
Proof.
  intros Hn. unfold ax_call, drawing, set_figs. cbn [figs files writable].
  rewrite fmap_app, (fmap_other_figures _ n d Hn). cbn.
  by rewrite bool_decide_eq_true_2.
Qed.

Lemma plot_city_unfold w n ds (item : pydict) :
  n ∉ fst <$> figs w ->
  plot_city B n item (drawing w n ds) =
  match point_coords B item with
  | Ok (lat, lon) =>
      (Ok tt,
       drawing w n (ds ++ marker_and_label (point_label B item) lat lon))
  | Raise e => (Raise e, drawing w n ds)
  end.
Proof.
  intros Hn. unfold plot_city, point_coords.
  rewrite M_bind_unfold. unfold lift at 1.
  destruct (getitem item (py "lat")) as [v|e]; [|done].
  rewrite M_bind_unfold. unfold lift at 1.
  destruct (py_float B v) as [lat|e]; [|done].
  rewrite M_bind_unfold. unfold lift at 1.
  destruct (py_float B _) as [lon|e]; [|done].
  rewrite M_bind_unfold, ax_call_unfold by done.
  unfold marker_and_label.
  destruct (truthy (VStr (point_label B item))).
  - rewrite ax_call_unfold by done. by rewrite <- app_assoc.
  - done.
Qed.

Lemma for_each_unfold w n ds (items : list pydict) :
  n ∉ fst <$> figs w ->
  for_each (plot_city B n) items (drawing w n ds) =
  (match (overlay B items).2 with
   | None => Ok tt
   | Some e => Raise e
   end,
   drawing w n (ds ++ (overlay B items).1)).
Proof.
  intros Hn. revert ds. induction items as [|item items IH]; intros ds.
  - cbn. by rewrite app_nil_r.
  - cbn [for_each overlay].
    rewrite M_bind_unfold, plot_city_unfold by done.
    destruct (point_coords B item) as [[lat lon]|e].
    + rewrite IH. cbn [fst snd]. by rewrite app_assoc.
    + cbn. by rewrite app_nil_r.
Qed.

Lemma figure_calls_drawing w n ds :
  n ∉ fst <$> figs w -> figure_calls (drawing w n ds) n = ds.
Proof.
  intros Hn. unfold figure_calls, drawing. cbn [figs].
  rewrite filter_app, filter_this_figure by done.
  by rewrite (filter_cons_True (fun f : nat * list draw => f.1 = _)) by done.
Qed.

Lemma plt_close_drawing w n ds (fs : gmap pystr (list draw)) :
  n ∉ fst <$> figs w ->
  plt_close n {| figs := figs w ++ [(n, ds)]; files := fs;
                 writable := writable w |}
  = (Ok tt, {| figs := figs w; files := fs; writable := writable w |}).
Proof.
  intros Hn. unfold plt_close, set_figs. cbn [figs files writable].
  rewrite filter_app, filter_other_figures by done.
  rewrite (filter_cons_False (fun f : nat * list draw => f.1 <> _))
    by (intros H; by apply H).
  cbn. by rewrite app_nil_r.
Qed.

(** The three last statements of a rendering call. *)
Lemma finish_unfold (out_path : pystr) w n ds :
  n ∉ fst <$> figs w ->
  (plt_tight_layout B ≫= fun _ =>
   plt_savefig B out_path ≫= fun _ =>
   plt_close n ≫= fun _ => mret out_path) (drawing w n ds)
  = finish B out_path w n ds.
Proof.
  intros Hn. unfold finish, plt_tight_layout.
  rewrite !M_bind_unfold, plt_gcf_unfold.
  unfold layout_figure at 1. rewrite figure_calls_drawing by done.
  destruct (layout_error B ds) as [e|]; [reflexivity|].
  rewrite ax_call_unfold by done.
  unfold plt_savefig. rewrite !M_bind_unfold, plt_gcf_unfold.
  unfold write_figure at 1. cbv zeta. rewrite figure_calls_drawing by done.
  destruct (savefig_name B out_path) as [target|e]; [|reflexivity].
  destruct (render_error B target (ds ++ [TightLayout])) as [e|]; [reflexivity|].
  unfold drawing. cbn [writable figs files].
  destruct (writable w target); [|reflexivity].
  by rewrite M_bind_unfold, plt_close_drawing by done.
Qed.

(** A figure the library and the file system accept is written to the file
    the library names and closed. *)
Lemma finish_accepts (out_path target : pystr) w n ds :
  accepts B w out_path target ds ->
  finish B out_path w n ds
  = (Ok out_path,
     {| figs := figs w;
        files := <[target := ds ++ [TightLayout]]> (files w);
        writable := writable w |}).
Proof.
  intros (Hl & Hs & Hr & Hw). unfold finish. by rewrite Hl, Hs, Hr, Hw.
Qed.

(** The call returns only for such a figure. *)
Lemma finish_returns (out_path p : pystr) w n ds :
  (finish B out_path w n ds).1 = Ok p ->
  p = out_path /\ exists target, accepts B w out_path target ds.
Proof.
  unfold finish, accepts.
  destruct (layout_error B ds) as [e|]; [done|].
  destruct (savefig_name B out_path) as [target|e]; [|done].
  destruct (render_error B target (ds ++ [TightLayout])) as [e|] eqn:Hr;
    [done|].
  destruct (writable w target) eqn:Hw; [|done].
  intros [= <-]. split; [done|]. by exists target.
Qed.

(** When it raises, the figure stays open and no file is touched. *)
Lemma finish_raises (out_path : pystr) w n ds (e : exn) :
  (finish B out_path w n ds).1 = Raise e ->
  (finish B out_path w n ds).2 = drawing w n ds
  \/ (finish B out_path w n ds).2 = drawing w n (ds ++ [TightLayout]).
Proof.
  unfold finish.
  destruct (layout_error B ds) as [e1|]; [by left|].
  destruct (savefig_name B out_path) as [target|e1]; [|by right].
  destruct (render_error B target (ds ++ [TightLayout])) as [e1|]; [by right|].
  destruct (writable w target); [done|by right].
Qed.

(** What a call of [create_graph] returns and leaves behind. *)
Lemma create_graph_unfold (out_path : pystr) (items : list pydict) w :
  create_graph B out_path items w =
  let n := S (max_list (fst <$> figs w)) in
  let ov := overlay B items in
  match ov.2 with
  | Some e => (Raise e, drawing w n (base_layers ++ ov.1))
  | None => finish B out_path w n (base_layers ++ ov.1)
  end.
Proof.
  pose proof (fresh_figure (figs w)) as Hn.
  unfold create_graph, plt_axes.
  rewrite M_bind_unfold, plt_figure_unfold.
  rewrite M_bind_unfold, plt_gcf_unfold.
  do 5 (rewrite M_bind_unfold, ax_call_unfold by done).
  rewrite M_bind_unfold, for_each_unfold by done.
  cbn zeta. cbn [app].
  destruct (overlay B items) as [l [e|]]; cbn [fst snd]; [done|].
  by rewrite <- finish_unfold by done.
Qed.

End Renderer.

Section PointRecords.

Variable B : builtins.

Lemma overlay_congr (pre post : list pydict) (i1 i2 : pydict) :
  point_coords B i1 = point_coords B i2 ->
  point_label B i1 = point_label B i2 ->
  overlay B (pre ++ i1 :: post) = overlay B (pre ++ i2 :: post).
Proof.
  intros Hc Hl. induction pre as [|item pre IH]; cbn.
  - by rewrite Hc, Hl.
  - destruct (point_coords B item) as [[lat lon]|e]; [|done]. by rewrite IH.
Qed.

Lemma overlay_raises (pre post : list pydict) (item : pydict) (e : exn) :
  point_coords B item = Raise e ->
  exists e', (overlay B (pre ++ item :: post)).2 = Some e'.
Proof.
  intros He. induction pre as [|i pre IH]; cbn.
  - rewrite He. by exists e.
  - destruct (point_coords B i) as [[lat lon]|e0]; [exact IH|by exists e0].
Qed.

Lemma overlay_points (items : list pydict)
    (pts : list (pystr * float * float)) :
  Forall2 (fun item p => point_of B item = Ok p) items pts ->
  overlay B items = (points_draws pts, None).
Proof.
  unfold points_draws.
  induction 1 as [|item [[name lat] lon] items pts Hp _ IH]; [done|].
  cbn [overlay]. unfold point_of in Hp.
  destruct (point_coords B item) as [[lat' lon']|e]; [|done].
  injection Hp as <- <- <-. rewrite IH. by rewrite bind_cons.
Qed.

Lemma point_coords_lng_lon (d : pydict) (v : pyval) :
  d !! py "lon" = None ->
  point_coords B (<[py "lng" := v]> d) = point_coords B (<[py "lon" := v]> d).
Proof.
  intros Hlon. unfold point_coords, getitem, dict_get.
  rewrite !lookup_insert_eq.
  rewrite !lookup_insert_ne by (intros H; vm_compute in H; discriminate H).
  by rewrite Hlon.
Qed.

Lemma point_label_lng_lon (d : pydict) (v : pyval) :
  point_label B (<[py "lng" := v]> d) = point_label B (<[py "lon" := v]> d).
Proof.
  unfold point_label, dict_get.
  by rewrite !lookup_insert_ne by (intros H; vm_compute in H; discriminate H).
Qed.

Lemma point_coords_no_longitude (d : pydict) :
  d !! py "lon" = None -> d !! py "lng" = None ->
  exists e, point_coords B d = Raise e.
Proof.
  intros Hlon Hlng. unfold point_coords, dict_get. rewrite Hlon, Hlng.
  destruct (getitem d (py "lat")) as [v|e]; [|by eauto].
  destruct (py_float B v) as [lat|e]; [|by eauto].
  cbn. by eauto.
Qed.

Lemma point_label_missing (d : pydict) :
  d !! py "city" = None -> d !! py "name" = None -> point_label B d = [].
Proof.
  intros Hc Hn. unfold point_label, dict_get. by rewrite Hc, Hn.
Qed.

End PointRecords.

(** C4 (as amended). [create_graph] closes the figure it opened on the
    exit where it returns the path: the registry of open figures is then the
    one the call found.  On an exit by exception the figure stays open. *)
Theorem create_graph_closes_figure_on_return
    (B : builtins) (out_path : pystr) (items : list pydict) (w : world) :
  match create_graph B out_path items w with
  | (Ok p, w') => p = out_path /\ figs w' = figs w
  | (Raise e, w') =>
      exists n ds, figs w' = figs w ++ [(n, ds)] /\ n ∉ fst <$> figs w
  end.
Proof.
  rewrite create_graph_unfold. cbn zeta.
  pose proof (fresh_figure (figs w)) as Hn.
  destruct (overlay B items).2 as [e|]; [by eauto|].
  destruct (finish B out_path w _ _) as [[p|e] w'] eqn:E.
  - destruct (finish_returns B out_path p w _ _ (f_equal fst E))
      as [-> [target Hacc]].
    rewrite (finish_accepts B out_path target w _ _ Hacc) in E.
    by injection E as <-.
  - destruct (finish_raises B out_path w _ _ e (f_equal fst E)) as [H|H];
      rewrite E in H; cbn [snd] in H; subst w'; by eauto.
Qed.

(** C4 (as stated). When the file cannot be written, [savefig] raises and
    the call ends with its figure still open. *)
Lemma create_graph_failed_save_leaves_figure_open :
  (create_graph demo_builtins (py "/missing/map.png") [] readonly_world).1
  = Raise OSError
  /\ figs readonly_world = []
  /\ figs (create_graph demo_builtins (py "/missing/map.png") []
             readonly_world).2
     = [(1%nat, base_layers ++ [TightLayout])].
Proof. split_and!; vm_compute; reflexivity. Qed.

(** C7. A point that gives its longitude under ["lng"] only is accepted
    as the point that gives the same value under ["lon"] only: the two calls
    return the same result and leave the same world, and when the latitude
    and the longitude convert, the other points are well formed and the
    library and the file system accept the figure, the call returns and
    the file holds the marker of the point at that longitude.  A point
    with neither key makes the call raise, and no file is written. *)
Theorem create_graph_lon_or_lng
    (B : builtins) (out_path : pystr) (pre post : list pydict)
    (d : pydict) (v : pyval) (w : world) :
  d !! py "lon" = None ->
  d !! py "lng" = None ->
  create_graph B out_path (pre ++ <[py "lng" := v]> d :: post) w
  = create_graph B out_path (pre ++ <[py "lon" := v]> d :: post) w
  /\ (forall (vlat : pyval) (lat lon : float)
             (ppre ppost : list (pystr * float * float)) (target : pystr),
        d !! py "lat" = Some vlat ->
        py_float B vlat = Ok lat ->
        py_float B v = Ok lon ->
        Forall2 (fun item p => point_of B item = Ok p) pre ppre ->
        Forall2 (fun item p => point_of B item = Ok p) post ppost ->
        accepts B w out_path target
          (base_layers ++ points_draws ppre
           ++ [Plot lon lat]
           ++ match point_label B d with
              | [] => []
              | _ :: _ =>
                  [Text (lon + 1)%float (lat + 1)%float (point_label B d)]
              end
           ++ points_draws ppost) ->
        create_graph B out_path (pre ++ <[py "lng" := v]> d :: post) w
        = (Ok out_path,
           {| figs := figs w;
              files :=
                <[target :=
                    base_layers ++ points_draws ppre
                    ++ [Plot lon lat]
                    ++ match point_label B d with
                       | [] => []
                       | _ :: _ =>
                           [Text (lon + 1)%float (lat + 1)%float
                              (point_label B d)]
                       end
                    ++ points_draws ppost ++ [TightLayout]]> (files w);
              writable := writable w |}))
  /\ exists e,
       (create_graph B out_path (pre ++ d :: post) w).1 = Raise e
       /\ files (create_graph B out_path (pre ++ d :: post) w).2 = files w.
Proof.
  intros Hlon Hlng. split_and!.
  - rewrite !create_graph_unfold.
    by rewrite (overlay_congr B pre post _ _
                  (point_coords_lng_lon B d v Hlon)
                  (point_label_lng_lon B d v)).
  - intros vlat lat lon ppre ppost target Hlat Hvlat Hv Hpre Hpost Hacc.
    assert (point_of B (<[py "lng" := v]> d) = Ok (point_label B d, lat, lon))
      as Hitem.
    { unfold point_of, point_coords, getitem, dict_get.
      rewrite lookup_insert_eq.
      rewrite !lookup_insert_ne by (intros H; vm_compute in H; discriminate H).
      rewrite Hlat, Hvlat, Hlon, Hv. f_equal. f_equal. f_equal.
      unfold point_label, dict_get.
      by rewrite !lookup_insert_ne
        by (intros H; vm_compute in H; discriminate H). }
    assert (Forall2 (fun item p => point_of B item = Ok p)
              (pre ++ <[py "lng" := v]> d :: post)
              (ppre ++ (point_label B d, lat, lon) :: ppost)) as Hall.
    { apply Forall2_app; [exact Hpre|]. by constructor. }
    rewrite create_graph_unfold. cbn zeta.
    rewrite (overlay_points B _ _ Hall). cbn [fst snd].
    assert (points_draws (ppre ++ (point_label B d, lat, lon) :: ppost)
            = points_draws ppre
              ++ [Plot lon lat]
              ++ match point_label B d with
                 | [] => []
                 | _ :: _ =>
                     [Text (lon + 1)%float (lat + 1)%float (point_label B d)]
                 end
              ++ points_draws ppost) as ->.
    { unfold points_draws. rewrite bind_app, bind_cons.
      cbn [fst snd marker_and_label truthy].
      by destruct (point_label B d). }
    rewrite (finish_accepts B out_path target w _ _ Hacc).
    by rewrite <- !app_assoc.
  - destruct (point_coords_no_longitude B d Hlon Hlng) as [e He].
    destruct (overlay_raises B pre post d e He) as [e' He'].
    exists e'. rewrite create_graph_unfold. cbn zeta. by rewrite He'.
Qed.

(** The record [{"lat": 10.0}] after a labelled point, with the longitude
    20.0 under either key and under none: with either key the call returns
    and the file holds the marker at longitude 20.0. *)
Lemma create_graph_lon_or_lng_witness :
  create_graph demo_builtins (py "map.png")
    ([named_point] ++ <[py "lng" := VFloat 20]> lat_only :: [])
    empty_world
  = (Ok (py "map.png"),
     {| figs := [];
        files :=
          <[py "map.png" :=
              [SetGlobal; AddFeature LAND; AddFeature OCEAN;
               AddFeature COASTLINE; AddFeature BORDERS;
               Plot 20 10; Text 21 11 (py "X");
               Plot 20 10; TightLayout]]> (files empty_world);
        writable := writable empty_world |})
  /\ create_graph demo_builtins (py "map.png")
       ([named_point] ++ <[py "lng" := VFloat 20]> lat_only :: [])
       empty_world
     = create_graph demo_builtins (py "map.png")
         ([named_point] ++ <[py "lon" := VFloat 20]> lat_only :: [])
         empty_world
  /\ exists e,
       (create_graph demo_builtins (py "map.png")
          ([named_point] ++ lat_only :: []) empty_world).1 = Raise e
       /\ files (create_graph demo_builtins (py "map.png")
                   ([named_point] ++ lat_only :: []) empty_world).2
          = files empty_world.
Proof.
  destruct (create_graph_lon_or_lng demo_builtins (py "map.png")
              [named_point] [] lat_only (VFloat 20) empty_world)
    as (Heq & Hacc & Herr).
  - vm_compute. reflexivity.
  - vm_compute. reflexivity.
  - split_and!; [|exact Heq|exact Herr].
    rewrite (Hacc (VFloat 10) 10%float 20%float
               [(py "X", 10%float, 20%float)] [] (py "map.png")).
    + vm_compute. reflexivity.
    + vm_compute. reflexivity.
    + reflexivity.
    + reflexivity.
    + constructor; [vm_compute; reflexivity|constructor].
    + constructor.
    + unfold accepts. split_and!; vm_compute; reflexivity.
Defined.

Section RenderedPicture.

Variable B : builtins.

(** A call on well-formed points, for a figure the library and the file
    system accept, returns the path and writes the base map, the calls for
    the points and the layout call to the file the library names. *)
Lemma create_graph_picture (out_path target : pystr) (items : list pydict)
    (pts : list (pystr * float * float)) (w : world) :
  Forall2 (fun item p => point_of B item = Ok p) items pts ->
  accepts B w out_path target (base_layers ++ points_draws pts) ->
  create_graph B out_path items w
  = (Ok out_path,
     {| figs := figs w;
        files := <[target := base_layers ++ points_draws pts ++ [TightLayout]]>
                   (files w);
        writable := writable w |}).
Proof.
  intros Hpts Hacc. rewrite create_graph_unfold. cbn zeta.
  rewrite (overlay_points B items pts Hpts). cbn [fst snd].
  rewrite (finish_accepts B out_path target w _ _ Hacc).
  by rewrite <- app_assoc.
Qed.

Lemma points_draws_app (p1 p2 : list (pystr * float * float)) :
  points_draws (p1 ++ p2) = points_draws p1 ++ points_draws p2.
Proof. apply bind_app. Qed.

Lemma points_draws_spelled (pts : list (pystr * float * float)) :
  points_draws pts
  = pts ≫= fun '(name, lat, lon) =>
      Plot lon lat ::
      match name with
      | [] => []
      | _ :: _ => [Text (lon + 1)%float (lat + 1)%float name]
      end.
Proof.
  unfold points_draws.
  apply list_bind_ext; [|done]. by intros [[[|ch name] lat] lon].
Qed.

End RenderedPicture.

(** C8 (as amended). For well-formed points, when the library and the file
    system accept the figure, the call returns and the file written holds,
    between the base map and the layout call and in the order of the input,
    one marker per point at (longitude, latitude), followed, when the label
    of the point is not empty, by the label at (longitude + 1,
    latitude + 1). *)
Theorem create_graph_marker_and_label
    (B : builtins) (out_path target : pystr) (items : list pydict)
    (pts : list (pystr * float * float)) (w : world) :
  Forall2 (fun item p => point_of B item = Ok p) items pts ->
  accepts B w out_path target
    (base_layers
     ++ (pts ≫= fun '(name, lat, lon) =>
           Plot lon lat ::
           match name with
           | [] => []
           | _ :: _ => [Text (lon + 1)%float (lat + 1)%float name]
           end)) ->
  create_graph B out_path items w
  = (Ok out_path,
     {| figs := figs w;
        files :=
          <[target :=
              base_layers
              ++ (pts ≫= fun '(name, lat, lon) =>
                    Plot lon lat ::
                    match name with
                    | [] => []
                    | _ :: _ => [Text (lon + 1)%float (lat + 1)%float name]
                    end)
              ++ [TightLayout]]> (files w);
        writable := writable w |}).
Proof.
  rewrite <- (points_draws_spelled pts). apply create_graph_picture.
Qed.

(** One labelled point. *)
Lemma create_graph_marker_and_label_witness :
  create_graph demo_builtins (py "map.png") [named_point] empty_world
  = (Ok (py "map.png"),
     {| figs := figs empty_world;
        files :=
          <[py "map.png" :=
              base_layers
              ++ ([(py "X", 10%float, 20%float)] ≫= fun '(name, lat, lon) =>
                    Plot lon lat ::
                    match name with
                    | [] => []
                    | _ :: _ => [Text (lon + 1)%float (lat + 1)%float name]
                    end)
              ++ [TightLayout]]> (files empty_world);
        writable := writable empty_world |}).
Proof.
  apply (create_graph_marker_and_label demo_builtins (py "map.png")
           (py "map.png") [named_point] [(py "X", 10%float, 20%float)]
           empty_world).
  - constructor; [vm_compute; reflexivity|constructor].
  - unfold accepts. split_and!; vm_compute; reflexivity.
Defined.

(** C8 (as stated). A point without a label gets its marker and no text:
    the loop makes one [Plot] call for it and no [Text] call, and the
    picture of this call has no [Text] entry at all. *)
Lemma create_graph_unnamed_point_no_text :
  point_of demo_builtins unnamed_point = Ok ([], 10%float, 20%float)
  /\ overlay demo_builtins [unnamed_point] = ([Plot 20 10], None)
  /\ (create_graph demo_builtins (py "map.png") [unnamed_point]
        empty_world).1 = Ok (py "map.png")
  /\ files (create_graph demo_builtins (py "map.png") [unnamed_point]
              empty_world).2 !! py "map.png"
     = Some [SetGlobal; AddFeature LAND; AddFeature OCEAN;
             AddFeature COASTLINE; AddFeature BORDERS;
             Plot 20 10; TightLayout].
Proof. split_and!; vm_compute; reflexivity. Qed.

(** C10. A point whose label is empty, or whose record has neither a
    ["city"] nor a ["name"] key, does not stop the call: with well-formed
    coordinates it contributes its marker and nothing else, so that, when
    the library and the file system accept the figure, the call returns and
    the file written holds the marker of the point and no label for it. *)
Theorem create_graph_unlabelled_point
    (B : builtins) (out_path target : pystr) (pre post : list pydict)
    (ppre ppost : list (pystr * float * float))
    (item : pydict) (lat lon : float) (w : world) :
  (item !! py "city" = None /\ item !! py "name" = None)
  \/ point_label B item = [] ->
  point_coords B item = Ok (lat, lon) ->
  Forall2 (fun item p => point_of B item = Ok p) pre ppre ->
  Forall2 (fun item p => point_of B item = Ok p) post ppost ->
  accepts B w out_path target
    (base_layers ++ points_draws ppre ++ [Plot lon lat]
     ++ points_draws ppost) ->
  create_graph B out_path (pre ++ item :: post) w
  = (Ok out_path,
     {| figs := figs w;
        files :=
          <[target :=
              base_layers ++ points_draws ppre ++ [Plot lon lat]
              ++ points_draws ppost ++ [TightLayout]]> (files w);
        writable := writable w |}).
Proof.
  intros Hlabel Hcoords Hpre Hpost Hacc.
  assert (point_label B item = []) as Hl.
  { destruct Hlabel as [[Hc Hn]|Hl]; [by apply point_label_missing|exact Hl]. }
  assert (point_of B item = Ok ([], lat, lon)) as Hitem.
  { unfold point_of. by rewrite Hcoords, Hl. }
  assert (Forall2 (fun item p => point_of B item = Ok p)
            (pre ++ item :: post) (ppre ++ ([], lat, lon) :: ppost)) as Hall.
  { apply Forall2_app; [exact Hpre|]. by constructor. }
  assert (points_draws (ppre ++ ([], lat, lon) :: ppost)
          = points_draws ppre ++ [Plot lon lat] ++ points_draws ppost) as Hd.
  { rewrite points_draws_app. unfold points_draws at 2. by rewrite bind_cons. }
  rewrite (create_graph_picture B out_path target _ _ w Hall)
    by (by rewrite Hd).
  rewrite Hd. by rewrite <- !app_assoc.
Qed.

(** A labelled point followed by one without a label. *)
Lemma create_graph_unlabelled_point_witness :
  create_graph demo_builtins (py "map.png")
    ([named_point] ++ unnamed_point :: []) empty_world
  = (Ok (py "map.png"),
     {| figs := figs empty_world;
        files :=
          <[py "map.png" :=
              base_layers ++ points_draws [(py "X", 10%float, 20%float)]
              ++ [Plot 20 10] ++ points_draws [] ++ [TightLayout]]>
            (files empty_world);
        writable := writable empty_world |}).
Proof.
  apply (create_graph_unlabelled_point demo_builtins (py "map.png")
           (py "map.png") [named_point] [] [(py "X", 10%float, 20%float)] []
           unnamed_point 10%float 20%float empty_world).
  - left. split; vm_compute; reflexivity.
  - vm_compute. reflexivity.
  - constructor; [vm_compute; reflexivity|constructor].
  - constructor.
  - unfold accepts. split_and!; vm_compute; reflexivity.
Defined.

(** * Further properties *)

(** ** Trimming *)

Section Trimming.

Implicit Types (s t ws : pystr) (c : N).

(** A string made of white space only. *)
Let blank ws : Prop := Forall (fun c => isspace c = true) ws.

Lemma lstrip_blank ws : blank ws -> lstrip ws = [].
Proof. induction 1 as [|c ws Hc _ IH]; [done|]. cbn. by rewrite Hc. Qed.

Lemma lstrip_app s t :
  lstrip (s ++ t) = match lstrip s with [] => lstrip t | _ :: _ => lstrip s ++ t end.
Proof.
  induction s as [|c s IH]; [done|]. cbn. by destruct (isspace c).
Qed.

Lemma lstrip_blank_app ws s : blank ws -> lstrip (ws ++ s) = lstrip s.
Proof. intros H. by rewrite lstrip_app, (lstrip_blank ws H). Qed.

Lemma rstrip_cons c s :
  rstrip (c :: s) =
  match rstrip s with
  | [] => if isspace c then [] else [c]
  | _ :: _ => c :: rstrip s
  end.
Proof.
  unfold rstrip. rewrite reverse_cons, lstrip_app.
  destruct (lstrip (reverse s)) as [|x l] eqn:E.
  - cbn. by destruct (isspace c).
  - rewrite reverse_app, reverse_singleton. cbn [app].
    destruct (reverse (x :: l)) as [|y l'] eqn:E'; [|done].
    apply (f_equal length) in E'. by rewrite length_reverse in E'.
Qed.

Lemma rstrip_nil : rstrip [] = [].
Proof. done. Qed.

Lemma rstrip_blank ws : blank ws -> rstrip ws = [].
Proof.
  induction 1 as [|c ws Hc _ IH]; [done|]. by rewrite rstrip_cons, IH, Hc.
Qed.

Lemma rstrip_app_blank s ws : blank ws -> rstrip (s ++ ws) = rstrip s.
Proof.
  intros H. induction s as [|c s IH]; cbn [app].
  - by rewrite rstrip_blank.
  - by rewrite !rstrip_cons, IH.
Qed.

Lemma strip_blank_around ws1 s ws2 :
  blank ws1 -> blank ws2 -> strip (ws1 ++ s ++ ws2) = strip s.
Proof.
  intros H1 H2. unfold strip. rewrite (lstrip_blank_app ws1 _ H1), lstrip_app.
  destruct (lstrip s) as [|x l]; [|by apply rstrip_app_blank].
  by rewrite (lstrip_blank ws2 H2).
Qed.

(** A string that neither starts nor ends with white space. *)
Let trimmed s : Prop := lstrip s = s /\ rstrip s = s.

Lemma lstrip_idemp s : lstrip (lstrip s) = lstrip s.
Proof.
  induction s as [|c s IH]; [done|]. cbn.
  destruct (isspace c) eqn:E; [done|]. cbn. by rewrite E.
Qed.

Lemma lstrip_rstrip s : lstrip s = s -> lstrip (rstrip s) = rstrip s.
Proof.
  destruct s as [|c s]; [done|]. cbn [lstrip]. destruct (isspace c) eqn:E.
  - intros H. apply (f_equal length) in H. cbn in H.
    assert (length (lstrip s) <= length s)%nat; [|lia].
    clear. induction s as [|c s IH]; cbn; [lia|].
    destruct (isspace c); cbn; lia.
  - intros _. rewrite rstrip_cons.
    destruct (rstrip s); rewrite ?E; cbn [lstrip]; by rewrite E.
Qed.

Lemma rstrip_idemp s : rstrip (rstrip s) = rstrip s.
Proof.
  induction s as [|c s IH]; [done|]. rewrite rstrip_cons.
  destruct (rstrip s) as [|x l] eqn:E.
  - destruct (isspace c) eqn:Ec; [done|]. by rewrite rstrip_cons, rstrip_nil, Ec.
  - by rewrite rstrip_cons, IH.
Qed.

Lemma strip_trimmed s : trimmed (strip s).
Proof.
  unfold trimmed, strip. split.
  - apply lstrip_rstrip, lstrip_idemp.
  - apply rstrip_idemp.
Qed.

Lemma strip_idemp s : strip (strip s) = strip s.
Proof.
  destruct (strip_trimmed s) as [Hl Hr]. unfold strip at 1. by rewrite Hl, Hr.
Qed.

Lemma lstrip_length s : (length (lstrip s) <= length s)%nat.
Proof.
  induction s as [|c s IH]; cbn; [lia|]. destruct (isspace c); cbn; lia.
Qed.

Lemma lstrip_length_eq s : length (lstrip s) = length s -> lstrip s = s.
Proof.
  destruct s as [|c s]; [done|]. cbn. destruct (isspace c); [|done].
  pose proof (lstrip_length s). cbn. lia.
Qed.

Lemma rstrip_length s : (length (rstrip s) <= length s)%nat.
Proof.
  unfold rstrip. rewrite length_reverse.
  etrans; [apply lstrip_length|]. by rewrite length_reverse.
Qed.

Lemma rstrip_length_eq s : length (rstrip s) = length s -> rstrip s = s.
Proof.
  unfold rstrip. rewrite length_reverse. intros H.
  rewrite lstrip_length_eq; [apply reverse_involutive|].
  by rewrite H, length_reverse.
Qed.

Lemma strip_length_eq s : length (strip s) = length s -> strip s = s.
Proof.
  unfold strip. intros H.
  pose proof (rstrip_length (lstrip s)). pose proof (lstrip_length s).
  assert (lstrip s = s) as Hl by (apply lstrip_length_eq; lia).
  rewrite Hl in *. by apply rstrip_length_eq.
Qed.

(** Folding does not change what is white space, so it commutes with
    trimming. *)
Lemma isspace_sqlite_lower_char c : isspace (sqlite_lower_char c) = isspace c.
Proof.
  symmetry. apply isspace_case. unfold ascii_case_eq, sqlite_lower_char.
  destruct (is_ascii_upper c) eqn:E; auto.
Qed.

Lemma lstrip_sqlite_lower s : lstrip (sqlite_lower s) = sqlite_lower (lstrip s).
Proof.
  unfold sqlite_lower. induction s as [|c s IH]; [done|]. cbn.
  rewrite isspace_sqlite_lower_char. by destruct (isspace c).
Qed.

Lemma strip_sqlite_lower s : strip (sqlite_lower s) = sqlite_lower (strip s).
Proof.
  unfold strip, rstrip.
  rewrite lstrip_sqlite_lower. unfold sqlite_lower at 1.
  rewrite <- fmap_reverse. fold (sqlite_lower (reverse (lstrip s))).
  rewrite lstrip_sqlite_lower. unfold sqlite_lower. by rewrite fmap_reverse.
Qed.

(** A stored name that matches a trimmed input is itself trimmed. *)
Lemma sqlite_lower_trimmed s t :
  sqlite_lower s = sqlite_lower (strip t) -> strip s = s.
Proof.
  intros H. apply strip_length_eq.
  assert (sqlite_lower (strip s) = sqlite_lower s) as Hs.
  { rewrite <- strip_sqlite_lower, H, strip_sqlite_lower. by rewrite strip_idemp. }
  apply (f_equal length) in Hs. unfold sqlite_lower in Hs.
  by rewrite !length_fmap in Hs.
Qed.

End Trimming.

(** ** More on the catalog *)

Section CatalogLookups.

Implicit Types (db : database) (s t : pystr) (c : CityRow).

(** Both lookups read their argument through [LOWER(strip(.))] only. *)
Lemma lookup_congr db s t :
  sqlite_lower (strip s) = sqlite_lower (strip t) ->
  get_city_by_name db s = get_city_by_name db t
  /\ get_coords_by_name db s = get_coords_by_name db t.
Proof.
  intros H. unfold get_coords_by_name, get_city_by_name, name_matches.
  by rewrite H.
Qed.

Lemma get_coords_by_name_fmap db s :
  get_coords_by_name db s
  = (fun c => (c_lat c, c_lng c, c_city c)) <$> get_city_by_name db s.
Proof.
  unfold get_coords_by_name, get_city_by_name. rewrite fetchone_fmap.
  by destruct (fetchone _).
Qed.

Lemma get_city_by_name_first db (before after : list CityRow) c s :
  cities db = before ++ c :: after ->
  Forall (fun c' => sqlite_lower (c_city c') <> sqlite_lower (strip s)) before ->
  sqlite_lower (c_city c) = sqlite_lower (strip s) ->
  get_city_by_name db s = Some c.
Proof.
  intros Hcs Hbefore Hc. unfold get_city_by_name. rewrite Hcs, filter_app.
  assert (filter (fun c' => name_matches (strip s) c' = true) before = []) as ->.
  { clear Hcs. induction Hbefore as [|c' l Hc' _ IH]; [done|].
    rewrite filter_cons_False; [exact IH|].
    unfold name_matches. by rewrite bool_decide_eq_true. }
  rewrite filter_cons_True; [done|].
  unfold name_matches. by rewrite bool_decide_eq_true.
Qed.

(** The row a lookup returns is found again under its stored name. *)
Lemma get_city_by_name_stored db s c :
  get_city_by_name db s = Some c ->
  strip (c_city c) = c_city c /\ get_city_by_name db (c_city c) = Some c.
Proof.
  intros H. pose proof H as [_ Hfold]%get_city_by_name_Some.
  pose proof (sqlite_lower_trimmed _ _ Hfold) as Hs. split; [exact Hs|].
  rewrite <- H. apply lookup_congr. by rewrite Hs.
Qed.

(** Two rows that are both found under their stored names and carry the
    same name are the same row. *)
Lemma resolved_rows_same_name db c1 c2 :
  get_city_by_name db (c_city c1) = Some c1 ->
  get_city_by_name db (c_city c2) = Some c2 ->
  c_city c1 = c_city c2 -> c1 = c2.
Proof. intros H1 H2 Hn. rewrite Hn in H1. congruence. Qed.

End CatalogLookups.

(** X1. Surrounding white space in the argument is ignored by both
    lookups. *)
Theorem lookups_ignore_surrounding_whitespace
    (db : database) (ws1 s ws2 : pystr) :
  Forall (fun c => isspace c = true) ws1 ->
  Forall (fun c => isspace c = true) ws2 ->
  get_city_by_name db (ws1 ++ s ++ ws2) = get_city_by_name db s
  /\ get_coords_by_name db (ws1 ++ s ++ ws2) = get_coords_by_name db s.
Proof.
  intros H1 H2. apply lookup_congr. by rewrite strip_blank_around.
Qed.

(** Tabs before and a line break after the name. *)
Lemma lookups_ignore_surrounding_whitespace_witness :
  get_city_by_name demo_db ([9; 9] ++ py "Zurich" ++ [13; 10])
  = get_city_by_name demo_db (py "Zurich")
  /\ get_coords_by_name demo_db ([9; 9] ++ py "Zurich" ++ [13; 10])
     = get_coords_by_name demo_db (py "Zurich").
Proof.
  apply (lookups_ignore_surrounding_whitespace demo_db [9; 9] (py "Zurich")
           [13; 10]).
  - repeat constructor.
  - repeat constructor.
Defined.

(** X2. When several rows of the catalog match, both lookups answer with
    the first one in table order. *)
Theorem lookups_return_first_match
    (db : database) (before after : list CityRow) (c : CityRow) (s : pystr) :
  cities db = before ++ c :: after ->
  Forall (fun c' => sqlite_lower (c_city c') <> sqlite_lower (strip s)) before ->
  sqlite_lower (c_city c) = sqlite_lower (strip s) ->
  get_city_by_name db s = Some c
  /\ get_coords_by_name db s = Some (c_lat c, c_lng c, c_city c).
Proof.
  intros Hcs Hbefore Hc.
  pose proof (get_city_by_name_first db before after c s Hcs Hbefore Hc) as H.
  split; [exact H|]. by rewrite get_coords_by_name_fmap, H.
Qed.

(** London in England stands before London in Ontario. *)
Lemma lookups_return_first_match_witness :
  get_city_by_name two_londons_db (py "london") = Some london
  /\ get_coords_by_name two_londons_db (py "london")
     = Some (c_lat london, c_lng london, c_city london).
Proof.
  apply (lookups_return_first_match two_londons_db [zurich] [london_ontario]
           london (py "london")).
  - reflexivity.
  - repeat constructor. vm_compute. discriminate.
  - vm_compute. reflexivity.
Defined.

(** X3. A row the lookup returns has a stored name without leading or
    trailing white space, and looking that stored name up returns the same
    row and the same coordinates: the name [get_coords_by_name] hands out
    can be fed back to the lookups. *)
Theorem lookup_stored_name_round_trip
    (db : database) (s : pystr) (c : CityRow) :
  get_city_by_name db s = Some c ->
  strip (c_city c) = c_city c
  /\ get_city_by_name db (c_city c) = Some c
  /\ get_coords_by_name db s = Some (c_lat c, c_lng c, c_city c)
  /\ get_coords_by_name db (c_city c) = get_coords_by_name db s.
Proof.
  intros H. destruct (get_city_by_name_stored db s c H) as [Hs Hc].
  split_and!; [exact Hs|exact Hc| |].
  - by rewrite get_coords_by_name_fmap, H.
  - by rewrite !get_coords_by_name_fmap, H, Hc.
Qed.

(** The lookup of " ZURICH " and then of the stored "Zurich". *)
Lemma lookup_stored_name_round_trip_witness :
  strip (c_city zurich) = c_city zurich
  /\ get_city_by_name demo_db (c_city zurich) = Some zurich
  /\ get_coords_by_name demo_db (py " ZURICH ")
     = Some (c_lat zurich, c_lng zurich, c_city zurich)
  /\ get_coords_by_name demo_db (c_city zurich)
     = get_coords_by_name demo_db (py " ZURICH ").
Proof.
  apply (lookup_stored_name_round_trip demo_db (py " ZURICH ") zurich).
  vm_compute. reflexivity.
Defined.

(** ** More on the favorites table *)

Section FavoritesRuns.

Implicit Types (db : database) (t : list (Z * Z)) (u v : Z) (c : CityRow)
  (cs : list CityRow).

(** The two ways [add_city] returns. *)
Lemma add_city_inv db u (s : pystr) (r : bool) db' :
  add_city db u s = Ok (r, db') ->
  (get_city_by_name db s = None /\ r = false /\ db' = db)
  \/ exists c t,
       get_city_by_name db s = Some c /\ users_cities db = Some t /\ r = true
       /\ db' = {| cities := cities db;
                   users_cities :=
                     Some (if bool_decide ((u, c_id c) ∈ t) then t
                           else t ++ [(u, c_id c)]) |}.
Proof.
  unfold add_city, sql_insert.
  destruct (get_city_by_name db s) as [c|]; [|intros [= <- <-]; by left].
  destruct (users_cities db) as [t|]; [|done].
  intros H. right. exists c, t.
  destruct (bool_decide ((u, c_id c) ∈ t)); injection H as <- <-; done.
Qed.

Lemma favorites_join_other_user cs t u v (cid : Z) :
  v <> u -> favorites_join cs (t ++ [(u, cid)]) v = favorites_join cs t v.
Proof.
  intros Hv. unfold favorites_join. rewrite filter_app.
  rewrite (filter_cons_False _ (u, cid)) by (cbn; congruence).
  by rewrite filter_nil, app_nil_r.
Qed.

(** Every stored pair points at a row that the lookup finds under its
    stored name. *)
Let resolved db t : Prop :=
  forall u id, (u, id) ∈ t ->
    exists c, get_city_by_name db (c_city c) = Some c /\ c_id c = id.

Lemma reachable_inv cs db :
  reachable cs db ->
  cities db = cs
  /\ exists t, users_cities db = Some t /\ NoDup t /\ resolved db t.
Proof.
  induction 1 as [db Hcs Hnone|db db' u s r _ (Hcs & t & Ht & Hnd & Hres) Hadd].
  - unfold create_user_table. rewrite Hnone. cbn. split; [done|].
    exists []. split_and!; [done|constructor|].
    intros u id Hin. by apply not_elem_of_nil in Hin.
  - apply add_city_inv in Hadd as [(_ & _ & ->)|(c & t' & Hc & Ht' & _ & ->)].
    { split; [done|]. by exists t. }
    rewrite Ht in Ht'. injection Ht' as <-. cbn [cities users_cities].
    split; [done|].
    destruct (bool_decide ((u, c_id c) ∈ t)) eqn:E.
    + exists t. split_and!; [done|done|exact Hres].
    + apply bool_decide_eq_false in E.
      exists (t ++ [(u, c_id c)]). split_and!; [done| |].
      * apply NoDup_app. split_and!; [done| |apply NoDup_singleton].
        intros p Hp ->%list_elem_of_singleton. done.
      * intros u1 id1 [Hin|Hin%list_elem_of_singleton]%elem_of_app.
        -- exact (Hres u1 id1 Hin).
        -- injection Hin as -> ->. exists c. split; [|done].
           by destruct (get_city_by_name_stored db s c Hc) as [_ H'].
Qed.

Lemma same_id_same_row cs c1 c2 :
  NoDup (c_id <$> cs) -> c1 ∈ cs -> c2 ∈ cs -> c_id c1 = c_id c2 -> c1 = c2.
Proof.
  induction cs as [|a cs IH]; [by intros _ ?%not_elem_of_nil|].
  rewrite fmap_cons, NoDup_cons. intros [Ha Hnd].
  intros [->|H1]%elem_of_cons [->|H2]%elem_of_cons Hid; [done| | |by apply IH].
  - destruct Ha. rewrite Hid. by apply list_elem_of_fmap_2.
  - destruct Ha. rewrite <- Hid. by apply list_elem_of_fmap_2.
Qed.

Lemma rows_of_id cs c :
  NoDup (c_id <$> cs) -> c ∈ cs ->
  filter (fun c' => c_id c' = c_id c) cs = [c].
Proof. intros Hnd Hc. by apply (filter_unique_key c_id). Qed.

End FavoritesRuns.

(** X4. [create_user_table] can be run at every start: it keeps a table
    that exists with all its rows, a second run changes nothing, and once
    it has run neither [add_city] nor [select_cities] raises; [add_city]
    then answers whether the catalog resolves the name. *)
Theorem create_user_table_then_no_error
    (db : database) (u : Z) (s : pystr) :
  create_user_table (create_user_table db) = create_user_table db
  /\ cities (create_user_table db) = cities db
  /\ (forall t, users_cities db = Some t ->
        users_cities (create_user_table db) = Some t)
  /\ (exists db',
        add_city (create_user_table db) u s
        = Ok (bool_decide (is_Some (get_city_by_name db s)), db'))
  /\ exists recs, select_cities (create_user_table db) u = Ok recs.
Proof.
  unfold create_user_table, add_city, select_cities, sql_insert.
  destruct (users_cities db) as [t|] eqn:E; cbn [users_cities cities];
    rewrite ?E.
  - split_and!; [done|done|done| |by eauto].
    destruct (get_city_by_name db s) as [c|].
    + rewrite (bool_decide_eq_true_2 (is_Some (Some c))) by eauto.
      destruct (bool_decide (_ ∈ t)); by eauto.
    + rewrite (bool_decide_eq_false_2 (is_Some None)) by (by intros [? ?]).
      by eauto.
  - change (get_city_by_name
              {| cities := cities db; users_cities := Some [] |} s)
      with (get_city_by_name db s).
    split_and!; [done|done|done| |by eauto].
    destruct (get_city_by_name db s) as [c|].
    + rewrite (bool_decide_eq_true_2 (is_Some (Some c))) by eauto.
      cbn. by eauto.
    + rewrite (bool_decide_eq_false_2 (is_Some None)) by (by intros [? ?]).
      by eauto.
Qed.

(** X5. A call of [add_city] that returns leaves the catalog as it is,
    removes no stored pair, stores at most the one pair of its user, and
    does not change what [select_cities] answers for any other user. *)
Theorem add_city_touches_one_user
    (db db' : database) (u : Z) (s : pystr) (r : bool) :
  add_city db u s = Ok (r, db') ->
  cities db' = cities db
  /\ (users_cities db' = users_cities db
      \/ exists t c,
           users_cities db = Some t /\ get_city_by_name db s = Some c
           /\ ((u, c_id c) ∉ t)
           /\ users_cities db' = Some (t ++ [(u, c_id c)]))
  /\ forall v, v <> u -> select_cities db' v = select_cities db v.
Proof.
  intros [(_ & _ & ->)|(c & t & Hc & Ht & _ & ->)]%add_city_inv.
  { split_and!; [done|by left|done]. }
  cbn [cities users_cities]. destruct (bool_decide ((u, c_id c) ∈ t)) eqn:E.
  - split_and!; [done|by left|]. intros v _. unfold select_cities.
    by rewrite Ht.
  - apply bool_decide_eq_false in E. split_and!; [done| |].
    + right. by exists t, c.
    + intros v Hv. unfold select_cities. rewrite Ht. cbn [users_cities cities].
      by rewrite favorites_join_other_user.
Qed.

(** User 7 adds Zurich; user 8 has stored London. *)
Lemma add_city_touches_one_user_witness :
  cities {| cities := cities demo_db;
            users_cities := Some [(8, 1); (7, 2)]%Z |} = cities demo_db
  /\ (users_cities {| cities := cities demo_db;
                      users_cities := Some [(8, 1); (7, 2)]%Z |}
      = Some [(8, 1)]%Z
      \/ exists t c,
           Some [(8, 1)]%Z = Some t
           /\ get_city_by_name
                {| cities := cities demo_db; users_cities := Some [(8, 1)]%Z |}
                (py "Zurich") = Some c
           /\ ((7%Z, c_id c) ∉ t)
           /\ users_cities {| cities := cities demo_db;
                              users_cities := Some [(8, 1); (7, 2)]%Z |}
              = Some (t ++ [(7%Z, c_id c)]))
  /\ forall v, v <> 7%Z ->
       select_cities {| cities := cities demo_db;
                        users_cities := Some [(8, 1); (7, 2)]%Z |} v
       = select_cities
           {| cities := cities demo_db; users_cities := Some [(8, 1)]%Z |} v.
Proof.
  apply (add_city_touches_one_user
           {| cities := cities demo_db; users_cities := Some [(8, 1)]%Z |}
           {| cities := cities demo_db;
              users_cities := Some [(8, 1); (7, 2)]%Z |}
           7 (py "Zurich") true).
  vm_compute. reflexivity.
Defined.

Section ReachableStates.

Implicit Types (db : database) (t : list (Z * Z)) (u : Z) (c : CityRow)
  (cs : list CityRow).

Lemma favorite_row_resolved cs db t u c :
  cities db = cs -> NoDup (c_id <$> cs) ->
  (forall u id, (u, id) ∈ t ->
     exists c, get_city_by_name db (c_city c) = Some c /\ c_id c = id) ->
  c ∈ cs -> (u, c_id c) ∈ t ->
  get_city_by_name db (c_city c) = Some c.
Proof.
  intros Hcs Hids Hres Hc Hin.
  destruct (Hres u (c_id c) Hin) as (c' & Hc' & Hid).
  pose proof Hc' as [Hin' _]%get_city_by_name_Some. rewrite Hcs in Hin'.
  by rewrite <- (same_id_same_row cs c' c Hids Hin' Hc Hid).
Qed.

Lemma length_bind_singletons {A C : Type} (f : A -> list C) (l : list A) :
  (forall x, x ∈ l -> length (f x) = 1%nat) -> length (l ≫= f) = length l.
Proof.
  induction l as [|a l IH]; [done|]. intros H.
  rewrite bind_cons, length_app, (H a) by left. cbn.
  rewrite IH; [lia|]. intros x Hx. apply H. by right.
Qed.

End ReachableStates.

(** X6. In every state the program reaches, the table respects its primary
    key and every stored pair points at a row of the catalog, namely the
    row the lookup finds under that row's stored name. *)
Theorem reachable_favorites_resolve (cs : list CityRow) (db : database) :
  reachable cs db ->
  cities db = cs
  /\ exists t,
       users_cities db = Some t /\ NoDup t
       /\ forall u id, (u, id) ∈ t ->
            exists c, c ∈ cs /\ c_id c = id
                      /\ get_city_by_name db (c_city c) = Some c.
Proof.
  intros (Hcs & t & Ht & Hnd & Hres)%reachable_inv. split; [done|].
  exists t. split_and!; [done|done|]. intros u id Hin.
  destruct (Hres u id Hin) as (c & Hc & Hid). exists c.
  pose proof Hc as [Hin' _]%get_city_by_name_Some. rewrite Hcs in Hin'. done.
Qed.

(** The table is created on the sample catalog and user 7 adds London. *)
Lemma reachable_favorites_resolve_witness :
  cities {| cities := cities demo_db; users_cities := Some [(7, 1)]%Z |}
  = cities demo_db
  /\ exists t,
       users_cities
         {| cities := cities demo_db; users_cities := Some [(7, 1)]%Z |}
       = Some t
       /\ NoDup t
       /\ forall u id, (u, id) ∈ t ->
            exists c, c ∈ cities demo_db /\ c_id c = id
              /\ get_city_by_name
                   {| cities := cities demo_db;
                      users_cities := Some [(7, 1)]%Z |} (c_city c)
                 = Some c.
Proof.
  apply (reachable_favorites_resolve (cities demo_db)
           {| cities := cities demo_db; users_cities := Some [(7, 1)]%Z |}).
  apply (reach_added (cities demo_db)
           (create_user_table
              {| cities := cities demo_db; users_cities := None |})
           _ 7 (py "London") true).
  - apply reach_created; reflexivity.
  - vm_compute. reflexivity.
Defined.

(** X7. In every state the program reaches over a catalog with unique ids,
    [select_cities] lists one record for each favorite of the user, and no
    two of its records carry the same name, whatever names the catalog
    repeats. *)
Theorem reachable_listing_without_repeats
    (cs : list CityRow) (db : database) (u : Z) :
  reachable cs db ->
  NoDup (c_id <$> cs) ->
  exists t recs,
    users_cities db = Some t
    /\ select_cities db u = Ok recs
    /\ length recs = length (filter (fun p : Z * Z => p.1 = u) t)
    /\ NoDup (record_name <$> recs).
Proof.
  intros (Hcs & t & Ht & Hnd & Hres)%reachable_inv Hids. subst cs.
  assert (forall c, c ∈ cities db -> (u, c_id c) ∈ t ->
            get_city_by_name db (c_city c) = Some c) as Hrow.
  { intros c Hc Hin.
    by apply (favorite_row_resolved (cities db) db t u c). }
  exists t. unfold select_cities. rewrite Ht. eexists.
  split_and!; [done|reflexivity| |].
  - rewrite length_fmap, (merge_sort_Permutation by_city). unfold favorites_join.
    apply length_bind_singletons. intros [u' id] [Hu Hin]%list_elem_of_filter.
    cbn in Hu. subst u'. cbn [snd].
    destruct (Hres u id Hin) as (c & Hc & <-).
    pose proof Hc as [Hin' _]%get_city_by_name_Some.
    by rewrite length_fmap, rows_of_id.
  - rewrite record_names_rows, (merge_sort_Permutation by_city).
    apply NoDup_fmap_2_strong.
    + intros r1 r2 (c1 & Hc1 & Hin1 & ->)%elem_of_favorites_join
        (c2 & Hc2 & Hin2 & ->)%elem_of_favorites_join Hn.
      by rewrite (resolved_rows_same_name db c1 c2
                    (Hrow c1 Hc1 Hin1) (Hrow c2 Hc2 Hin2) Hn).
    + unfold favorites_join. apply NoDup_bind.
      * intros [u1 id1] [u2 id2] r [Hu1 Hin1]%list_elem_of_filter
          [Hu2 Hin2]%list_elem_of_filter.
        cbn in Hu1, Hu2. subst u1 u2. cbn [snd].
        intros (c1 & -> & [Hid1 Hc1]%list_elem_of_filter)%list_elem_of_fmap
               (c2 & Heq & [Hid2 Hc2]%list_elem_of_filter)%list_elem_of_fmap.
        cbn in Hid1, Hid2. subst id1 id2.
        assert (c_city c1 = c_city c2) as Hn by (by injection Heq).
        by rewrite (resolved_rows_same_name db c1 c2
                      (Hrow c1 Hc1 Hin1) (Hrow c2 Hc2 Hin2) Hn).
      * intros [u' id] [Hu Hin]%list_elem_of_filter. cbn [snd].
        cbn in Hu. subst u'. destruct (Hres u id Hin) as (c & Hc & <-).
        pose proof Hc as [Hin' _]%get_city_by_name_Some.
        rewrite rows_of_id by done. apply NoDup_singleton.
      * by apply NoDup_filter.
Qed.

(** User 7 stores the first London of a catalog with two. *)
Lemma reachable_listing_without_repeats_witness :
  exists t recs,
    users_cities
      {| cities := cities two_londons_db; users_cities := Some [(7, 1)]%Z |}
    = Some t
    /\ select_cities
         {| cities := cities two_londons_db; users_cities := Some [(7, 1)]%Z |}
         7 = Ok recs
    /\ length recs = length (filter (fun p : Z * Z => p.1 = 7%Z) t)
    /\ NoDup (record_name <$> recs).
Proof.
  apply (reachable_listing_without_repeats (cities two_londons_db)
           {| cities := cities two_londons_db;
              users_cities := Some [(7, 1)]%Z |} 7).
  - apply (reach_added (cities two_londons_db)
             (create_user_table two_londons_db) _ 7 (py " LONDON") true).
    + apply reach_created; reflexivity.
    + vm_compute. reflexivity.
  - apply (bool_decide_unpack _). vm_compute. exact I.
Defined.

(** X8. [select_cities] answers with the empty list exactly when no row of
    the catalog is a favorite of the user; a stored pair whose city id is
    not in the catalog is not listed. *)
Theorem select_cities_empty_iff
    (db : database) (t : list (Z * Z)) (u : Z) :
  users_cities db = Some t ->
  (select_cities db u = Ok []
   <-> forall c, c ∈ cities db -> (u, c_id c) ∉ t).
Proof.
  intros Ht. unfold select_cities. rewrite Ht. split.
  - intros [= H] c Hc Hin. apply fmap_nil_inv in H.
    assert (fav_columns c ∈ merge_sort by_city (favorites_join (cities db) t u))
      as Hrow.
    { rewrite (merge_sort_Permutation by_city). apply elem_of_favorites_join.
      by exists c. }
    rewrite H in Hrow. by apply not_elem_of_nil in Hrow.
  - intros Hnone.
    destruct (merge_sort by_city (favorites_join (cities db) t u))
      as [|r rows] eqn:E; [done|].
    assert (r ∈ merge_sort by_city (favorites_join (cities db) t u)) as Hr
      by (rewrite E; left).
    rewrite (merge_sort_Permutation by_city) in Hr.
    apply elem_of_favorites_join in Hr as (c & Hc & Hin & _).
    by destruct (Hnone c Hc).
Qed.

(** User 9 has no favorite; the only stored pair of user 7 names the id 99,
    which the catalog does not hold. *)
Lemma select_cities_empty_iff_witness :
  select_cities
    {| cities := cities demo_db; users_cities := Some [(7, 99)]%Z |} 7 = Ok []
  <-> forall c, c ∈ cities demo_db -> (7%Z, c_id c) ∉ [(7, 99)]%Z.
Proof.
  apply (select_cities_empty_iff
           {| cities := cities demo_db; users_cities := Some [(7, 99)]%Z |}
           [(7, 99)]%Z 7).
  reflexivity.
Defined.

(** ** More on the renderer *)

Section RenderOutcomes.

Variable B : builtins.

Implicit Types (items pre post : list pydict) (item d : pydict)
  (pts : list (pystr * float * float)) (w : world).

Lemma point_of_Ok_iff item :
  (exists p, point_of B item = Ok p) <->
  exists lat lon, point_coords B item = Ok (lat, lon).
Proof.
  unfold point_of. destruct (point_coords B item) as [[lat lon]|e].
  - split; eauto.
  - split; [by intros [p ?]|by intros (? & ? & ?)].
Qed.

Lemma overlay_None_iff items :
  (overlay B items).2 = None <->
  Forall (fun item => exists p, point_of B item = Ok p) items.
Proof.
  induction items as [|item items IH]; [by split; [constructor|]|].
  cbn [overlay]. rewrite Forall_cons, point_of_Ok_iff, <- IH.
  destruct (point_coords B item) as [[lat lon]|e]; cbn [snd].
  - split; [by eauto|by intros [_ ?]].
  - split; [done|by intros [(? & ? & ?) _]].
Qed.

Lemma overlay_None_points items :
  (overlay B items).2 = None ->
  exists pts, Forall2 (fun item p => point_of B item = Ok p) items pts.
Proof.
  induction items as [|item items IH]; [by exists []|].
  cbn [overlay]. unfold point_of at 1.
  destruct (point_coords B item) as [[lat lon]|e] eqn:E; [|done].
  cbn [snd]. intros H. destruct (IH H) as [pts Hpts].
  exists ((point_label B item, lat, lon) :: pts). constructor; [|done].
  unfold point_of. by rewrite E.
Qed.

Lemma overlay_stops pre post item pts (e : exn) :
  Forall2 (fun item p => point_of B item = Ok p) pre pts ->
  point_coords B item = Raise e ->
  overlay B (pre ++ item :: post) = (points_draws pts, Some e).
Proof.
  unfold points_draws.
  induction 1 as [|i [[name lat] lon] pre pts Hp _ IH]; intros He.
  - cbn. by rewrite He.
  - cbn [app overlay]. unfold point_of in Hp.
    destruct (point_coords B i) as [[lat' lon']|e']; [|done].
    injection Hp as <- <- <-. by rewrite (IH He), bind_cons.
Qed.

Lemma city_record_lookups (r : fav_row) :
  city_record r !! py "city" = Some (VStr r.1.1.1)
  /\ city_record r !! py "name" = None
  /\ city_record r !! py "lat" = Some (VFloat r.1.1.2)
  /\ city_record r !! py "lon" = Some (VFloat r.1.2).
Proof. destruct r as [[[name lat] lng] country]. by vm_compute. Qed.

Lemma point_of_city_record (r : fav_row) :
  point_of B (city_record r) = Ok (r.1.1.1, r.1.1.2, r.1.2).
Proof.
  destruct (city_record_lookups r) as (Hc & Hn & Hlat & Hlon).
  unfold point_of, point_coords, point_label, getitem, dict_get.
  rewrite Hc, Hn, Hlat, Hlon. cbn.
  by destruct (r.1.1.1).
Qed.

End RenderOutcomes.

(** X9. [create_graph] returns its path exactly when every point record
    gives readable coordinates and the library and the file system accept
    the figure with the base map and the calls for these points; one
    malformed point makes the whole call raise. *)
Theorem create_graph_returns_iff
    (B : builtins) (out_path : pystr) (items : list pydict) (w : world) :
  (create_graph B out_path items w).1 = Ok out_path
  <-> exists pts target,
        Forall2 (fun item p => point_of B item = Ok p) items pts
        /\ accepts B w out_path target (base_layers ++ points_draws pts).
Proof.
  split.
  - rewrite create_graph_unfold. cbn zeta.
    destruct (overlay B items).2 as [e|] eqn:E; [done|].
    destruct (overlay_None_points B items E) as [pts Hpts].
    rewrite (overlay_points B items pts Hpts). cbn [fst].
    intros H. apply finish_returns in H as [_ [target Hacc]].
    by exists pts, target.
  - intros (pts & target & Hpts & Hacc).
    by rewrite (create_graph_picture B out_path target items pts w Hpts Hacc).
Qed.

(** X10. The loop stops at the first point record whose coordinates cannot
    be read: the call raises the exception of that conversion, writes no
    file, and leaves its figure open with the base map and the markers and
    labels of the points before it. *)
Theorem create_graph_stops_at_first_bad_point
    (B : builtins) (out_path : pystr) (pre post : list pydict)
    (ppre : list (pystr * float * float)) (item : pydict) (e : exn)
    (w : world) :
  Forall2 (fun item p => point_of B item = Ok p) pre ppre ->
  point_coords B item = Raise e ->
  create_graph B out_path (pre ++ item :: post) w
  = (Raise e,
     {| figs := figs w ++ [(S (max_list (fst <$> figs w)),
                            base_layers ++ points_draws ppre)];
        files := files w;
        writable := writable w |}).
Proof.
  intros Hpre He. rewrite create_graph_unfold. cbn zeta.
  by rewrite (overlay_stops B pre post item ppre e Hpre He).
Qed.

(** A labelled point, then a record without ["lat"], then another point. *)
Lemma create_graph_stops_at_first_bad_point_witness :
  create_graph demo_builtins (py "map.png")
    ([named_point] ++ <[py "lon" := VFloat 20]> ∅ :: [unnamed_point])
    empty_world
  = (Raise (KeyError (py "lat")),
     {| figs := figs empty_world
                ++ [(S (max_list (fst <$> figs empty_world)),
                     base_layers ++ points_draws [(py "X", 10%float, 20%float)])];
        files := files empty_world;
        writable := writable empty_world |}).
Proof.
  apply (create_graph_stops_at_first_bad_point demo_builtins (py "map.png")
           [named_point] [unnamed_point] [(py "X", 10%float, 20%float)]
           (<[py "lon" := VFloat 20]> ∅) (KeyError (py "lat")) empty_world).
  - constructor; [vm_compute; reflexivity|constructor].
  - vm_compute. reflexivity.
Defined.

(** X11. The exception a malformed first point raises: [KeyError] for a
    record without ["lat"]; [TypeError] for a latitude [None] and for a
    record with a float latitude and neither ["lon"] nor ["lng"];
    [ValueError] for a latitude string that [float] cannot parse. *)
Theorem create_graph_point_exceptions
    (B : builtins) (out_path : pystr) (item : pydict) (post : list pydict)
    (w : world) :
  (item !! py "lat" = None ->
   (create_graph B out_path (item :: post) w).1 = Raise (KeyError (py "lat")))
  /\ (item !! py "lat" = Some VNone ->
      (create_graph B out_path (item :: post) w).1 = Raise TypeError)
  /\ (forall s, item !! py "lat" = Some (VStr s) -> float_of_str B s = None ->
      (create_graph B out_path (item :: post) w).1 = Raise ValueError)
  /\ (forall lat, item !! py "lat" = Some (VFloat lat) ->
      item !! py "lon" = None -> item !! py "lng" = None ->
      (create_graph B out_path (item :: post) w).1 = Raise TypeError).
Proof.
  assert (forall e, point_coords B item = Raise e ->
            (create_graph B out_path (item :: post) w).1 = Raise e) as H.
  { intros e He. rewrite create_graph_unfold. cbn zeta.
    change (item :: post) with ([] ++ item :: post).
    by rewrite (overlay_stops B [] post item [] e (List.Forall2_nil _) He). }
  unfold point_coords, getitem, dict_get in H.
  split_and!.
  - intros Hlat. apply H. by rewrite Hlat.
  - intros Hlat. apply H. by rewrite Hlat.
  - intros s Hlat Hs. apply H. rewrite Hlat. cbn. by rewrite Hs.
  - intros lat Hlat Hlon Hlng. apply H. by rewrite Hlat, Hlon, Hlng.
Qed.


(** A path without an extension: the call returns the path as it was given,
    and the file written is the one with [".png"] appended. *)
Example create_graph_default_extension :
  create_graph demo_builtins (py "map") [unnamed_point] empty_world
  = (Ok (py "map"),
     {| figs := [];
        files := <[py "map.png" := base_layers ++ [Plot 20 10; TightLayout]]> ∅;
        writable := writable empty_world |}).
Proof. vm_compute. reflexivity. Qed.

(** A path with an extension the canvas has no format for: [savefig]
    raises, no file is written and the figure stays open. *)
Example create_graph_unsupported_extension :
  create_graph demo_builtins (py "map.xyz") [unnamed_point] empty_world
  = (Raise ValueError,
     {| figs := [(1%nat, base_layers ++ [Plot 20 10; TightLayout])];
        files := ∅;
        writable := writable empty_world |}).
Proof. vm_compute. reflexivity. Qed.

(** X13. When a point record has ["lon"], what it holds under ["lng"] is
    never read. *)
Theorem create_graph_lon_before_lng
    (B : builtins) (out_path : pystr) (pre post : list pydict)
    (d : pydict) (v v' : pyval) (w : world) :
  create_graph B out_path
    (pre ++ <[py "lon" := v]> (<[py "lng" := v']> d) :: post) w
  = create_graph B out_path (pre ++ <[py "lon" := v]> d :: post) w.
Proof.
  rewrite !create_graph_unfold.
  rewrite (overlay_congr B pre post
             (<[py "lon" := v]> (<[py "lng" := v']> d)) (<[py "lon" := v]> d));
    [done| |].
  - unfold point_coords, getitem, dict_get.
    rewrite !lookup_insert_eq.
    by rewrite !lookup_insert_ne by (intros H; vm_compute in H; discriminate H).
  - unfold point_label, dict_get.
    by rewrite !lookup_insert_ne by (intros H; vm_compute in H; discriminate H).
Qed.

(** X14. The label of a point is read from ["city"] or else from ["name"]:
    a record that gives it under ["name"] only is rendered as the record
    that gives it under ["city"] only, and when ["city"] holds a true value
    ["name"] is not used. *)
Theorem create_graph_label_city_or_name
    (B : builtins) (out_path : pystr) (pre post : list pydict)
    (d : pydict) (v v' : pyval) (w : world) :
  d !! py "city" = None ->
  d !! py "name" = None ->
  create_graph B out_path (pre ++ <[py "name" := v]> d :: post) w
  = create_graph B out_path (pre ++ <[py "city" := v]> d :: post) w
  /\ (truthy v = true ->
      create_graph B out_path
        (pre ++ <[py "city" := v]> (<[py "name" := v']> d) :: post) w
      = create_graph B out_path (pre ++ <[py "city" := v]> d :: post) w).
Proof.
  intros Hc Hn.
  assert (forall i1 i2, point_coords B i1 = point_coords B i2 ->
            point_label B i1 = point_label B i2 ->
            create_graph B out_path (pre ++ i1 :: post) w
            = create_graph B out_path (pre ++ i2 :: post) w) as Hcongr.
  { intros i1 i2 H1 H2. rewrite !create_graph_unfold.
    by rewrite (overlay_congr B pre post i1 i2 H1 H2). }
  split; [|intros Hv]; apply Hcongr.
  - unfold point_coords, getitem, dict_get.
    by rewrite !lookup_insert_ne by (intros H; vm_compute in H; discriminate H).
  - unfold point_label, dict_get. rewrite !lookup_insert_eq.
    rewrite !lookup_insert_ne by (intros H; vm_compute in H; discriminate H).
    rewrite Hc, Hn. unfold py_or. cbn [truthy].
    destruct (truthy v) eqn:E; cbn [truthy]; by rewrite ?E.
  - unfold point_coords, getitem, dict_get.
    by rewrite !lookup_insert_ne by (intros H; vm_compute in H; discriminate H).
  - unfold point_label, dict_get. rewrite !lookup_insert_eq.
    unfold py_or. by rewrite Hv.
Qed.

(** The record [{"lat": 10.0, "lon": 20.0}] with the label "X" under either
    key. *)
Lemma create_graph_label_city_or_name_witness :
  create_graph demo_builtins (py "map.png")
    ([] ++ <[py "name" := VStr (py "X")]> unnamed_point :: []) empty_world
  = create_graph demo_builtins (py "map.png")
      ([] ++ <[py "city" := VStr (py "X")]> unnamed_point :: []) empty_world
  /\ (truthy (VStr (py "X")) = true ->
      create_graph demo_builtins (py "map.png")
        ([] ++ <[py "city" := VStr (py "X")]>
                 (<[py "name" := VStr (py "Y")]> unnamed_point) :: [])
        empty_world
      = create_graph demo_builtins (py "map.png")
          ([] ++ <[py "city" := VStr (py "X")]> unnamed_point :: [])
          empty_world).
Proof.
  apply (create_graph_label_city_or_name demo_builtins (py "map.png") [] []
           unnamed_point (VStr (py "X")) (VStr (py "Y")) empty_world).
  - vm_compute. reflexivity.
  - vm_compute. reflexivity.
Defined.

(** X15. A successful call leaves no trace that a later call on the same
    path could see: once both calls succeed, rendering [items2] after
    [items1] leaves the world that rendering [items2] alone leaves.  In
    particular a repeated call changes nothing. *)
Theorem create_graph_last_call_wins
    (B : builtins) (out_path : pystr) (items1 items2 : list pydict)
    (w : world) :
  (create_graph B out_path items1 w).1 = Ok out_path ->
  (create_graph B out_path items2 w).1 = Ok out_path ->
  create_graph B out_path items2 (create_graph B out_path items1 w).2
  = create_graph B out_path items2 w.
Proof.
  rewrite !(create_graph_unfold B out_path _ w). cbn zeta.
  destruct (overlay B items1).2 as [e|] eqn:E1; [done|].
  destruct (overlay B items2).2 as [e|] eqn:E2; [done|].
  set (c1 := base_layers ++ (overlay B items1).1).
  set (c2 := base_layers ++ (overlay B items2).1).
  set (n := S (max_list (fst <$> figs w))).
  intros H1 H2.
  apply finish_returns in H1 as [_ [t1 H1]].
  apply finish_returns in H2 as [_ [t2 H2]].
  assert (t1 = t2) as ->.
  { destruct H1 as (_ & Hs1 & _), H2 as (_ & Hs2 & _). congruence. }
  rewrite (finish_accepts B out_path t2 w n c1 H1).
  rewrite (finish_accepts B out_path t2 w n c2 H2).
  cbn [fst snd]. rewrite create_graph_unfold. cbn zeta. cbn [figs].
  rewrite E2. fold c2. fold n.
  match goal with
  | |- finish _ _ ?w1 _ _ = _ =>
      rewrite (finish_accepts B out_path t2 w1 n c2 H2)
  end.
  cbn [figs files writable]. by rewrite insert_insert_eq.
Qed.

(** One point, rendered twice to the same path. *)
Lemma create_graph_last_call_wins_witness :
  create_graph demo_builtins (py "map.png") [named_point]
    (create_graph demo_builtins (py "map.png") [named_point] empty_world).2
  = create_graph demo_builtins (py "map.png") [named_point] empty_world.
Proof.
  apply (create_graph_last_call_wins demo_builtins (py "map.png")
           [named_point] [named_point] empty_world).
  - vm_compute. reflexivity.
  - vm_compute. reflexivity.
Defined.

(** X16. What [select_cities] returns never stops the renderer at a
    point: the points it reads are the stored name, latitude and longitude
    of the listed cities, in the order of the list, whatever the two
    interpreter conversions do; when the library and the file system accept
    the figure, [create_graph] returns and the file holds a marker and a
    label for every listed city. *)
Theorem create_graph_of_select_cities
    (B : builtins) (db : database) (u : Z) (recs : list pydict)
    (out_path : pystr) (w : world) :
  select_cities db u = Ok recs ->
  exists pts,
    Forall2 (fun (r : pydict) (p : pystr * float * float) =>
               r !! py "city" = Some (VStr p.1.1)
               /\ r !! py "lat" = Some (VFloat p.1.2)
               /\ r !! py "lng" = Some (VFloat p.2)) recs pts
    /\ Forall2 (fun r p => point_of B r = Ok p) recs pts
    /\ forall target,
         accepts B w out_path target (base_layers ++ points_draws pts) ->
         create_graph B out_path recs w
         = (Ok out_path,
            {| figs := figs w;
               files :=
                 <[target := base_layers ++ points_draws pts ++ [TightLayout]]>
                   (files w);
               writable := writable w |}).
Proof.
  unfold select_cities. destruct (users_cities db) as [t|]; [|done].
  intros [= <-].
  set (rows := merge_sort by_city (favorites_join (cities db) t u)).
  exists ((fun r : fav_row => (r.1.1.1, r.1.1.2, r.1.2)) <$> rows).
  assert (Forall2 (fun r p => point_of B r = Ok p) (city_record <$> rows)
            ((fun r : fav_row => (r.1.1.1, r.1.1.2, r.1.2)) <$> rows)) as Hpts.
  { apply Forall2_fmap, Forall_Forall2_diag, Forall_forall. intros r _.
    apply point_of_city_record. }
  split_and!.
  - apply Forall2_fmap, Forall_Forall2_diag, Forall_forall. intros r _.
    destruct (city_record_lookups r) as (Hc & _ & Hlat & _).
    split_and!; [done|done|apply city_record_lng].
  - exact Hpts.
  - intros target Hacc. by apply create_graph_picture.
Qed.

(** User 7 of the sample catalog with Zurich and Amsterdam stored: the map
    written to ["map.png"]. *)
Lemma create_graph_of_select_cities_witness :
  select_cities
    {| cities := cities demo_db; users_cities := Some [(7, 2); (7, 3)]%Z |} 7
  = Ok (city_record <$> [fav_columns amsterdam; fav_columns zurich])
  /\ create_graph demo_builtins (py "map.png")
       (city_record <$> [fav_columns amsterdam; fav_columns zurich])
       empty_world
     = (Ok (py "map.png"),
        {| figs := [];
           files :=
             <[py "map.png" :=
                 base_layers
                 ++ [Plot 4.875 52.375; Text 5.875 53.375 (py "Amsterdam");
                     Plot 8.5 47.375; Text 9.5 48.375 (py "Zurich");
                     TightLayout]]> ∅;
           writable := writable empty_world |}).
Proof.
  split; [vm_compute; reflexivity|].
  destruct (create_graph_of_select_cities demo_builtins
              {| cities := cities demo_db;
                 users_cities := Some [(7, 2); (7, 3)]%Z |}
              7 (city_record <$> [fav_columns amsterdam; fav_columns zurich])
              (py "map.png") empty_world)
    as (pts & Hfields & Hpts & Hrender).
  - vm_compute. reflexivity.
  - assert (pts = [(py "Amsterdam", 52.375%float, 4.875%float);
                   (py "Zurich", 47.375%float, 8.5%float)]) as ->.
    { apply Forall2_cons_inv_l in Hpts as (p1 & pts1 & H1 & Hpts & ->).
      apply Forall2_cons_inv_l in Hpts as (p2 & pts2 & H2 & Hpts & ->).
      apply Forall2_nil_inv_l in Hpts as ->.
      vm_compute in H1, H2. by injection H1 as <-; injection H2 as <-. }
    rewrite (Hrender (py "map.png")).
    + vm_compute. reflexivity.
    + unfold accepts. split_and!; vm_compute; reflexivity.
Defined.

(** ** [draw_distance] *)

Section DistanceFigures.

Import Distance.

Implicit Types (w : world) (F : list (nat * list call)) (ds : list call)
  (n : nat).

Lemma route_bind_unfold {A C : Type} (m : M A) (f : A -> M C) w :
  (m ≫= f) w =
  match m w with
  | (Ok a, w') => f a w'
  | (Raise e, w') => (Raise e, w')
  end.
Proof. reflexivity. Qed.

Lemma route_fresh_figure F : S (max_list (fst <$> F)) ∉ fst <$> F.
Proof. apply max_list_not_elem_of_gt. lia. Qed.

Lemma route_fmap_other_figures F n (d : call) :
  n ∉ fst <$> F ->
  (fun f : nat * list call =>
     if bool_decide (f.1 = n) then (f.1, f.2 ++ [d]) else f) <$> F = F.
Proof.
  induction F as [|f F IH]; [done|]. rewrite fmap_cons, not_elem_of_cons.
  intros [Hf HF]. rewrite !fmap_cons, IH by done.
  by rewrite bool_decide_eq_false_2 by done.
Qed.

Lemma route_filter_other_figures F n :
  n ∉ fst <$> F -> filter (fun f : nat * list call => f.1 <> n) F = F.
Proof.
  induction F as [|f F IH]; [done|]. rewrite fmap_cons, not_elem_of_cons.
  intros [Hf HF]. rewrite filter_cons_True by done. by rewrite IH.
Qed.

Lemma route_filter_this_figure F n :
  n ∉ fst <$> F -> filter (fun f : nat * list call => f.1 = n) F = [].
Proof.
  induction F as [|f F IH]; [done|]. rewrite fmap_cons, not_elem_of_cons.
  intros [Hf HF]. rewrite filter_cons_False by done. by apply IH.
Qed.

Let drawing w n ds : world := set_figs w (figs w ++ [(n, ds)]).

Lemma route_gcf_unfold w n ds : plt_gcf (drawing w n ds) = (Ok n, drawing w n ds).
Proof. unfold plt_gcf, drawing. cbn [figs set_figs]. by rewrite last_snoc. Qed.

Lemma route_ax_call_unfold w n ds (d : call) :
  n ∉ fst <$> figs w ->
  ax_call n d (drawing w n ds) = (Ok tt, drawing w n (ds ++ [d])).
Proof.
  intros Hn. unfold ax_call, drawing, set_figs.
  cbn [figs files writable layout_error savefig_name render_error].
  rewrite fmap_app, (route_fmap_other_figures _ n d Hn). cbn.
  by rewrite bool_decide_eq_true_2.
Qed.

Lemma route_figure_calls w n ds :
  n ∉ fst <$> figs w -> figure_calls (drawing w n ds) n = ds.
Proof.
  intros Hn. unfold figure_calls, drawing, set_figs. cbn [figs].
  rewrite filter_app, route_filter_this_figure by done.
  by rewrite (filter_cons_True (fun f : nat * list call => f.1 = _)) by done.
Qed.

Lemma route_finish_unfold (out_path : pystr) w n ds :
  n ∉ fst <$> figs w ->
  (plt_tight_layout ≫= fun _ =>
   plt_savefig out_path ≫= fun _ =>
   plt_close n ≫= fun _ => mret (Some out_path)) (drawing w n ds)
  = finish out_path w n ds.
Proof.
  intros Hn. unfold finish, plt_tight_layout.
  rewrite !route_bind_unfold, route_gcf_unfold.
  unfold layout_figure at 1. rewrite route_figure_calls by done.
  change (layout_error (drawing w n ds)) with (layout_error w).
  destruct (layout_error w ds) as [e|]; [reflexivity|].
  rewrite route_ax_call_unfold by done.
  unfold plt_savefig. rewrite !route_bind_unfold, route_gcf_unfold.
  unfold write_figure at 1. cbv zeta. rewrite route_figure_calls by done.
  change (savefig_name (drawing w n (ds ++ [TightLayout])))
    with (savefig_name w).
  change (render_error (drawing w n (ds ++ [TightLayout])))
    with (render_error w).
  change (writable (drawing w n (ds ++ [TightLayout]))) with (writable w).
  destruct (savefig_name w out_path) as [target|e]; [|reflexivity].
  destruct (render_error w target (ds ++ [TightLayout])) as [e|]; [reflexivity|].
  destruct (writable w target); [|reflexivity].
  rewrite route_bind_unfold. unfold plt_close, drawing, set_figs.
  cbn [figs files writable layout_error savefig_name render_error].
  rewrite !filter_app, route_filter_other_figures by done.
  rewrite (filter_cons_False (fun f : nat * list call => f.1 <> _))
    by (intros H; by apply H).
  cbn. by rewrite app_nil_r.
Qed.

Lemma route_finish_accepts (out_path target : pystr) w n ds :
  accepts w out_path target ds ->
  finish out_path w n ds
  = (Ok (Some out_path),
     {| figs := figs w;
        files := <[target := ds ++ [TightLayout]]> (files w);
        writable := writable w;
        layout_error := layout_error w;
        savefig_name := savefig_name w;
        render_error := render_error w |}).
Proof.
  intros (Hl & Hs & Hr & Hw). unfold finish. by rewrite Hl, Hs, Hr, Hw.
Qed.

Lemma route_finish_returns (out_path : pystr) w n ds (r : option pystr) :
  (finish out_path w n ds).1 = Ok r ->
  exists target, accepts w out_path target ds.
Proof.
  unfold finish, accepts.
  destruct (layout_error w ds) as [e|]; [done|].
  destruct (savefig_name w out_path) as [target|e]; [|done].
  destruct (render_error w target (ds ++ [TightLayout])) as [e|] eqn:Hr;
    [done|].
  destruct (writable w target) eqn:Hw; [|done].
  intros _. by exists target.
Qed.

Lemma route_finish_raises (out_path : pystr) w n ds (e : exn) :
  (finish out_path w n ds).1 = Raise e ->
  exists ds', (finish out_path w n ds).2 = set_figs w (figs w ++ [(n, ds')])
    /\ (ds' = ds \/ ds' = ds ++ [TightLayout]).
Proof.
  unfold finish.
  destruct (layout_error w ds) as [e1|]; [by eauto|].
  destruct (savefig_name w out_path) as [target|e1]; [|by eauto].
  destruct (render_error w target (ds ++ [TightLayout])) as [e1|]; [by eauto|].
  destruct (writable w target); [done|by eauto].
Qed.

(** What a call of [draw_distance] returns and leaves behind. *)
Lemma draw_distance_unfold (db : database) (city1 city2 out_path : pystr) w :
  draw_distance db city1 city2 out_path w =
  match get_city_by_name db city1, get_city_by_name db city2 with
  | Some c1, Some c2 =>
      finish out_path w (S (max_list (fst <$> figs w))) (route c1 c2)
  | _, _ => (Ok None, w)
  end.
Proof.
  pose proof (route_fresh_figure (figs w)) as Hn.
  unfold draw_distance. rewrite !get_coords_by_name_fmap.
  destruct (get_city_by_name db city1) as [c1|]; [|done].
  destruct (get_city_by_name db city2) as [c2|]; [|done].
  cbn [fmap option_fmap option_map].
  rewrite route_bind_unfold.
  change (plt_figure w)
    with (Ok (S (max_list (fst <$> figs w))),
          drawing w (S (max_list (fst <$> figs w))) []).
  unfold plt_axes. rewrite route_bind_unfold, route_gcf_unfold.
  do 9 (rewrite route_bind_unfold, route_ax_call_unfold by done).
  by rewrite <- route_finish_unfold by done.
Qed.

End DistanceFigures.

(** X17. When one of the two names is unknown, [draw_distance] returns
    [None] before it touches pyplot: no figure is opened and no file is
    written. *)
Theorem draw_distance_unknown_city
    (db : database) (city1 city2 out_path : pystr) (w : Distance.world) :
  get_coords_by_name db city1 = None \/ get_coords_by_name db city2 = None ->
  Distance.draw_distance db city1 city2 out_path w = (Ok None, w).
Proof.
  rewrite draw_distance_unfold, !get_coords_by_name_fmap.
  destruct (get_city_by_name db city1) as [c1|],
           (get_city_by_name db city2) as [c2|]; try done.
  by intros [?|?].
Qed.

(** Zurich is known, Atlantis is not. *)
Lemma draw_distance_unknown_city_witness :
  Distance.draw_distance demo_db (py "Zurich") (py "Atlantis") (py "route.png")
    Distance.empty_world
  = (Ok None, Distance.empty_world).
Proof.
  apply (draw_distance_unknown_city demo_db (py "Zurich") (py "Atlantis")
           (py "route.png") Distance.empty_world).
  right. vm_compute. reflexivity.
Defined.

(** X18. When both names resolve, [draw_distance] draws the base map, the
    line and the two markers through the stored coordinates, and both
    stored names at (lng + 1, lat + 1), a label also when the stored name
    is empty.  When the library and the file system accept that figure, the
    call returns the path, with the file written and the figure closed;
    and the call returns only then: in every other case it raises, writes
    no file and leaves its figure open. *)
Theorem draw_distance_known_cities
    (db : database) (city1 city2 out_path : pystr) (c1 c2 : CityRow)
    (w : Distance.world) :
  get_city_by_name db city1 = Some c1 ->
  get_city_by_name db city2 = Some c2 ->
  let calls :=
    [Distance.SetGlobal; Distance.AddFeature LAND;
     Distance.AddFeature OCEAN; Distance.AddFeature COASTLINE;
     Distance.AddFeature BORDERS;
     Distance.PlotLine [c_lng c1; c_lng c2] [c_lat c1; c_lat c2];
     Distance.PlotMarkers [c_lng c1; c_lng c2] [c_lat c1; c_lat c2];
     Distance.Text8 (c_lng c1 + 1)%float (c_lat c1 + 1)%float (c_city c1);
     Distance.Text8 (c_lng c2 + 1)%float (c_lat c2 + 1)%float (c_city c2)] in
  (forall target,
     Distance.accepts w out_path target calls ->
     Distance.draw_distance db city1 city2 out_path w
     = (Ok (Some out_path),
        {| Distance.figs := Distance.figs w;
           Distance.files :=
             <[target := calls ++ [Distance.TightLayout]]> (Distance.files w);
           Distance.writable := Distance.writable w;
           Distance.layout_error := Distance.layout_error w;
           Distance.savefig_name := Distance.savefig_name w;
           Distance.render_error := Distance.render_error w |}))
  /\ (forall r,
        (Distance.draw_distance db city1 city2 out_path w).1 = Ok r ->
        exists target, Distance.accepts w out_path target calls)
  /\ (forall e,
        (Distance.draw_distance db city1 city2 out_path w).1 = Raise e ->
        Distance.files (Distance.draw_distance db city1 city2 out_path w).2
        = Distance.files w
        /\ exists ds,
             Distance.figs (Distance.draw_distance db city1 city2 out_path w).2
             = Distance.figs w
               ++ [(S (max_list (fst <$> Distance.figs w)), ds)]
             /\ (ds = calls \/ ds = calls ++ [Distance.TightLayout])).
Proof.
  intros H1 H2 calls. rewrite draw_distance_unfold, H1, H2.
  change (Distance.route c1 c2) with calls. split_and!.
  - intros target Hacc. by apply route_finish_accepts.
  - intros r. apply route_finish_returns.
  - intros e He.
    destruct (route_finish_raises out_path w _ calls e He) as (ds & -> & Hds).
    split; [done|]. by exists ds.
Qed.

(** From Zurich to Amsterdam on the sample catalog: the call returns and
    the route is in ["route.png"]. *)
Lemma draw_distance_known_cities_witness :
  Distance.draw_distance demo_db (py "zurich") (py " AMSTERDAM") (py "route.png")
    Distance.empty_world
  = (Ok (Some (py "route.png")),
     {| Distance.figs := [];
        Distance.files :=
          <[py "route.png" :=
              [Distance.SetGlobal; Distance.AddFeature LAND;
               Distance.AddFeature OCEAN; Distance.AddFeature COASTLINE;
               Distance.AddFeature BORDERS;
               Distance.PlotLine [8.5; 4.875] [47.375; 52.375];
               Distance.PlotMarkers [8.5; 4.875] [47.375; 52.375];
               Distance.Text8 9.5 48.375 (py "Zurich");
               Distance.Text8 5.875 53.375 (py "Amsterdam");
               Distance.TightLayout]%float]> ∅;
        Distance.writable := Distance.writable Distance.empty_world;
        Distance.layout_error := Distance.layout_error Distance.empty_world;
        Distance.savefig_name := Distance.savefig_name Distance.empty_world;
        Distance.render_error := Distance.render_error Distance.empty_world |}).
Proof.
  destruct (draw_distance_known_cities demo_db (py "zurich") (py " AMSTERDAM")
              (py "route.png") zurich amsterdam Distance.empty_world)
    as (Hok & _ & _).
  - vm_compute. reflexivity.
  - vm_compute. reflexivity.
  - rewrite (Hok (py "route.png")).
    + vm_compute. reflexivity.
    + unfold Distance.accepts. split_and!; vm_compute; reflexivity.
Defined.

(** X19. [draw_distance] reads its two names as the lookups do: names with
    the same trimmed, ASCII-folded form give the same call. *)
Theorem draw_distance_same_folded_names
    (db : database) (s1 t1 s2 t2 out_path : pystr) (w : Distance.world) :
  sqlite_lower (strip s1) = sqlite_lower (strip t1) ->
  sqlite_lower (strip s2) = sqlite_lower (strip t2) ->
  Distance.draw_distance db s1 s2 out_path w
  = Distance.draw_distance db t1 t2 out_path w.
Proof.
  intros [H1 _]%(lookup_congr db) [H2 _]%(lookup_congr db).
  by rewrite !draw_distance_unfold, H1, H2.
Qed.

(** "zurich" and " ZURICH ", "Amsterdam" and "amsterdam". *)
Lemma draw_distance_same_folded_names_witness :
  Distance.draw_distance demo_db (py "zurich") (py "Amsterdam") (py "route.png")
    Distance.empty_world
  = Distance.draw_distance demo_db (py " ZURICH ") (py "amsterdam")
      (py "route.png") Distance.empty_world.
Proof.
  apply (draw_distance_same_folded_names demo_db (py "zurich") (py " ZURICH ")
           (py "Amsterdam") (py "amsterdam") (py "route.png")
           Distance.empty_world).
  - vm_compute. reflexivity.
  - vm_compute. reflexivity.
Defined.

(** ** The chat handlers *)

Section CommandText.

Implicit Types (s cmd ws arg text : pystr).

Lemma lstrip_nil_iff s : lstrip s = [] <-> Forall (fun c => isspace c = true) s.
Proof.
  induction s as [|c s IH]; [by split; [constructor|]|]. cbn.
  rewrite Forall_cons. destruct (isspace c); [|by split; [|intros [? _]]].
  rewrite IH. by split; [|intros [_ ?]].
Qed.

Lemma lstrip_word cmd s :
  cmd <> [] -> Forall (fun c => isspace c = false) cmd ->
  lstrip (cmd ++ s) = cmd ++ s.
Proof. intros Hne Hcmd. destruct Hcmd as [|c cmd Hc _]; [done|]. cbn. by rewrite Hc. Qed.

Lemma take_word_word cmd ws arg :
  Forall (fun c => isspace c = false) cmd ->
  ws <> [] -> Forall (fun c => isspace c = true) ws ->
  take_word (cmd ++ ws ++ arg) = (cmd, ws ++ arg).
Proof.
  intros Hcmd Hne Hws. induction Hcmd as [|c cmd Hc _ IH].
  - destruct Hws as [|c ws Hc _]; [done|]. cbn. by rewrite Hc.
  - cbn. by rewrite Hc, IH.
Qed.

Lemma take_word_all cmd :
  Forall (fun c => isspace c = false) cmd -> take_word cmd = (cmd, []).
Proof. induction 1 as [|c cmd Hc _ IH]; [done|]. cbn. by rewrite Hc, IH. Qed.

Lemma split_maxsplit1_command cmd ws arg :
  cmd <> [] -> Forall (fun c => isspace c = false) cmd ->
  ws <> [] -> Forall (fun c => isspace c = true) ws ->
  split_maxsplit1 (cmd ++ ws ++ arg)
  = match lstrip arg with [] => [cmd] | _ :: _ => [cmd; lstrip arg] end.
Proof.
  intros Hne Hcmd Hws1 Hws. unfold split_maxsplit1.
  rewrite (lstrip_word cmd _ Hne Hcmd), (take_word_word cmd ws arg Hcmd Hws1 Hws).
  cbn [fst snd]. rewrite (lstrip_blank_app ws arg Hws).
  destruct cmd as [|c cmd]; [done|]. cbn [app]. done.
Qed.

Lemma city_from_text_command cmd ws arg :
  cmd <> [] -> Forall (fun c => isspace c = false) cmd ->
  ws <> [] -> Forall (fun c => isspace c = true) ws ->
  _city_from_text (cmd ++ ws ++ arg) = Returned (strip arg).
Proof.
  intros Hne Hcmd Hws1 Hws. unfold _city_from_text.
  rewrite (split_maxsplit1_command cmd ws arg Hne Hcmd Hws1 Hws).
  destruct cmd as [|c cmd]; [done|]. cbn [app].
  destruct (lstrip arg) as [|x l] eqn:E.
  - unfold strip. by rewrite E.
  - assert (lstrip (x :: l) = x :: l) as Hl
      by (rewrite <- E; apply lstrip_idemp).
    cbn [length bool_decide]. unfold strip. rewrite E.
    rewrite bool_decide_eq_false_2 by done. cbn [lookup list_lookup].
    by rewrite Hl.
Qed.

End CommandText.

(** X20. For a command word followed by white space and an argument,
    [_city_from_text] returns the argument without its surrounding white
    space (the empty string when nothing but white space follows), and for
    a command word alone it returns the empty string. *)
Theorem city_from_text_returns_argument (cmd ws arg : pystr) :
  cmd <> [] ->
  Forall (fun c => isspace c = false) cmd ->
  ws <> [] ->
  Forall (fun c => isspace c = true) ws ->
  _city_from_text (cmd ++ ws ++ arg) = Returned (strip arg)
  /\ _city_from_text cmd = Returned [].
Proof.
  intros Hne Hcmd Hws1 Hws. split.
  - by apply city_from_text_command.
  - pose proof (lstrip_word cmd [] Hne Hcmd) as Hl. rewrite app_nil_r in Hl.
    destruct cmd as [|c cmd]; [done|].
    unfold _city_from_text, split_maxsplit1.
    by rewrite Hl, (take_word_all _ Hcmd).
Qed.

(** The example of the source: "/show_city New York". *)
Lemma city_from_text_returns_argument_witness :
  _city_from_text (py "/show_city" ++ py " " ++ py "New York")
  = Returned (strip (py "New York"))
  /\ _city_from_text (py "/show_city") = Returned [].
Proof.
  apply (city_from_text_returns_argument (py "/show_city") (py " ")
           (py "New York")).
  - discriminate.
  - repeat constructor.
  - discriminate.
  - repeat constructor.
Defined.

(** X21. [_city_from_text] raises exactly on a text that is not empty and
    consists of white space only (the split yields no part, and the part 1
    is read); whatever it returns has no leading or trailing white
    space. *)
Theorem city_from_text_outcomes (text : pystr) :
  (_city_from_text text = Failed IndexError
   <-> text <> [] /\ Forall (fun c => isspace c = true) text)
  /\ (forall e, _city_from_text text = Failed e -> e = IndexError)
  /\ (forall r, _city_from_text text = Returned r -> strip r = r).
Proof.
  unfold _city_from_text, split_maxsplit1. rewrite <- lstrip_nil_iff.
  destruct text as [|c text].
  { split_and!; [by split; [|intros [? _]]|done|by intros r [= <-]]. }
  destruct (lstrip (c :: text)) as [|x l] eqn:E.
  { cbv beta iota zeta. rewrite bool_decide_eq_false_2 by done.
    split_and!; [done|by intros e [= <-]|done]. }
  cbv beta iota zeta.
  destruct (lstrip (take_word (x :: l)).2) as [|y l'] eqn:E'.
  - rewrite bool_decide_eq_true_2 by done.
    split_and!; [by split; [|intros [_ ?]]|done|by intros r [= <-]].
  - rewrite bool_decide_eq_false_2 by done.
    change ([(take_word (x :: l)).1; y :: l'] !! 1%nat) with (Some (y :: l')).
    split_and!; [by split; [|intros [_ ?]]|done|].
    intros r [= <-]. apply strip_idemp.
Qed.

Section Handlers.

Variable B : builtins.

Implicit Types (m : message) (st : bot) (w : world).

Lemma render_and_send_accepted (chat_id : Z) (path : pystr)
    (items : list pydict) (pts : list (pystr * float * float)) st :
  Forall2 (fun item p => point_of B item = Ok p) items pts ->
  accepts B (bot_world st) path path (base_layers ++ points_draws pts) ->
  render_and_send B chat_id path items st =
  (Returned tt,
   {| bot_db := bot_db st;
      bot_world :=
        {| figs := figs (bot_world st);
           files :=
             <[path := base_layers ++ points_draws pts ++ [TightLayout]]>
               (files (bot_world st));
           writable := writable (bot_world st) |};
      bot_sent :=
        bot_sent st
        ++ [SendPhoto chat_id
              (base_layers ++ points_draws pts ++ [TightLayout])] |}).
Proof.
  intros Hpts Hacc. unfold render_and_send.
  rewrite (create_graph_picture B path path items pts (bot_world st) Hpts Hacc).
  unfold send_photo_file. cbn [bot_world files]. by rewrite lookup_insert_eq.
Qed.

Lemma render_and_send_refused (chat_id : Z) (path : pystr)
    (items : list pydict) (pts : list (pystr * float * float)) st :
  Forall2 (fun item p => point_of B item = Ok p) items pts ->
  (forall target,
     ~ accepts B (bot_world st) path target (base_layers ++ points_draws pts)) ->
  exists e ds,
    render_and_send B chat_id path items st =
    (Failed (Raised e),
     {| bot_db := bot_db st;
        bot_world :=
          {| figs := figs (bot_world st)
                     ++ [(S (max_list (fst <$> figs (bot_world st))), ds)];
             files := files (bot_world st);
             writable := writable (bot_world st) |};
        bot_sent := bot_sent st |}).
Proof.
  intros Hpts Hno. unfold render_and_send.
  rewrite create_graph_unfold. cbn zeta.
  rewrite (overlay_points B items pts Hpts). cbn [fst snd].
  destruct (finish B path (bot_world st) _ _) as [[p|e] w'] eqn:E.
  - destruct (finish_returns B path p (bot_world st) _ _ (f_equal fst E))
      as [_ [target Hacc]].
    by destruct (Hno target).
  - exists e.
    destruct (finish_raises B path (bot_world st) _ _ e (f_equal fst E))
      as [H|H]; rewrite E in H; cbn [snd] in H; subst w'; by eexists.
Qed.

Lemma point_of_single (name : pystr) (lat lon : float) :
  point_of B (<[py "city" := VStr name]>
                (<[py "lat" := VFloat lat]> (<[py "lon" := VFloat lon]> ∅)))
  = Ok (name, lat, lon).
Proof.
  set (d := <[py "city" := VStr name]> _).
  assert (d !! py "city" = Some (VStr name) /\ d !! py "name" = None
          /\ d !! py "lat" = Some (VFloat lat)
          /\ d !! py "lon" = Some (VFloat lon)) as (Hc & Hn & Hlat & Hlon)
    by (by vm_compute).
  unfold point_of, point_coords, point_label, getitem, dict_get.
  rewrite Hc, Hn, Hlat, Hlon. cbn. by destruct name.
Qed.

End Handlers.

(** X22. [/remember_city] with an argument: one message goes to the chat
    and pyplot is not touched.  Without a city name the reply is the
    format hint; for a name the catalog does not resolve it is the
    unknown-city text, and the database stays as it is; for a name the
    catalog resolves the pair of the sender and the city id is stored
    (once) and the reply repeats the name as the sender typed it. *)
Theorem handle_remember_city_outcome
    (m : message) (st : bot) (cmd ws arg : pystr) (t : list (Z * Z)) :
  msg_text m = Some (cmd ++ ws ++ arg) ->
  cmd <> [] ->
  Forall (fun c => isspace c = false) cmd ->
  ws <> [] ->
  Forall (fun c => isspace c = true) ws ->
  users_cities (bot_db st) = Some t ->
  handle_remember_city m st =
  (Returned tt,
   match strip arg, get_city_by_name (bot_db st) arg with
   | [], _ => send (SendMessage (msg_chat_id m) text_format_remember_city) st
   | _ :: _, None => send (SendMessage (msg_chat_id m) text_unknown_city) st
   | _ :: _, Some c =>
       {| bot_db :=
            {| cities := cities (bot_db st);
               users_cities :=
                 Some (if bool_decide ((msg_from_user_id m, c_id c) ∈ t)
                       then t else t ++ [(msg_from_user_id m, c_id c)]) |};
          bot_world := bot_world st;
          bot_sent :=
            bot_sent st
            ++ [SendMessage (msg_chat_id m) (text_saved (strip arg))] |}
   end).
Proof.
  intros Htext Hne Hcmd Hws1 Hws Ht. unfold handle_remember_city.
  rewrite Htext.
  change (default [] (Some (cmd ++ ws ++ arg))) with (cmd ++ ws ++ arg).
  rewrite (city_from_text_command cmd ws arg Hne Hcmd Hws1 Hws).
  destruct (strip arg) as [|x l] eqn:E; [done|].
  assert (get_city_by_name (bot_db st) (x :: l)
          = get_city_by_name (bot_db st) arg) as Hlook.
  { apply lookup_congr. by rewrite <- E, strip_idemp. }
  unfold add_city, sql_insert. rewrite Hlook, Ht.
  destruct (get_city_by_name (bot_db st) arg) as [c|]; [|done].
  by destruct (bool_decide ((msg_from_user_id m, c_id c) ∈ t)).
Qed.

(** User 7 writes "/remember_city  zurich " in chat -5. *)
Lemma handle_remember_city_outcome_witness :
  handle_remember_city
    (Message (-5) 7 (Some (py "/remember_city" ++ py "  " ++ py "zurich ")))
    demo_bot =
  (Returned tt,
   match strip (py "zurich "),
         get_city_by_name (bot_db demo_bot) (py "zurich ") with
   | [], _ => send (SendMessage (-5) text_format_remember_city) demo_bot
   | _ :: _, None => send (SendMessage (-5) text_unknown_city) demo_bot
   | _ :: _, Some c =>
       {| bot_db :=
            {| cities := cities (bot_db demo_bot);
               users_cities :=
                 Some (if bool_decide ((7%Z, c_id c) ∈ [])
                       then [] else [] ++ [(7%Z, c_id c)]) |};
          bot_world := bot_world demo_bot;
          bot_sent :=
            bot_sent demo_bot
            ++ [SendMessage (-5) (text_saved (strip (py "zurich ")))] |}
   end).
Proof.
  apply (handle_remember_city_outcome
           (Message (-5) 7
              (Some (py "/remember_city" ++ py "  " ++ py "zurich ")))
           demo_bot (py "/remember_city") (py "  ") (py "zurich ") []).
  - reflexivity.
  - discriminate.
  - repeat constructor.
  - discriminate.
  - repeat constructor.
  - reflexivity.
Defined.

(** X23. [/show_city] with an argument.  Without a city name, or for a name
    the catalog does not resolve, the only effect is one text message.  For
    a name that resolves to the row [c] the map is rendered to
    [map_<chat id>_single.png] with one marker at the stored (lng, lat),
    labelled with the stored name when that is not empty: when the library
    and the file system accept the figure under that file name, the file is
    sent to the chat as a photo and the figure is closed; when they do not
    accept it, the handler raises, sends nothing and leaves the figure
    open. *)
Theorem handle_show_city_outcome
    (B : builtins) (m : message) (st : bot) (cmd ws arg : pystr) :
  msg_text m = Some (cmd ++ ws ++ arg) ->
  cmd <> [] ->
  Forall (fun c => isspace c = false) cmd ->
  ws <> [] ->
  Forall (fun c => isspace c = true) ws ->
  match strip arg, get_city_by_name (bot_db st) arg with
  | [], _ =>
      handle_show_city B m st
      = (Returned tt, send (SendMessage (msg_chat_id m) text_format_show_city) st)
  | _ :: _, None =>
      handle_show_city B m st
      = (Returned tt, send (SendMessage (msg_chat_id m) text_unknown_city) st)
  | _ :: _, Some c =>
      let path := py "map_" ++ str_of_int (msg_chat_id m) ++ py "_single.png" in
      let calls :=
        base_layers ++ marker_and_label (c_city c) (c_lat c) (c_lng c) in
      (accepts B (bot_world st) path path calls ->
       handle_show_city B m st
       = (Returned tt,
          {| bot_db := bot_db st;
             bot_world :=
               {| figs := figs (bot_world st);
                  files :=
                    <[path := calls ++ [TightLayout]]> (files (bot_world st));
                  writable := writable (bot_world st) |};
             bot_sent :=
               bot_sent st
               ++ [SendPhoto (msg_chat_id m) (calls ++ [TightLayout])] |}))
      /\ ((forall target, ~ accepts B (bot_world st) path target calls) ->
          exists e ds,
            handle_show_city B m st
            = (Failed (Raised e),
               {| bot_db := bot_db st;
                  bot_world :=
                    {| figs := figs (bot_world st)
                               ++ [(S (max_list (fst <$> figs (bot_world st))),
                                    ds)];
                       files := files (bot_world st);
                       writable := writable (bot_world st) |};
                  bot_sent := bot_sent st |}))
  end.
Proof.
  intros Htext Hne Hcmd Hws1 Hws. unfold handle_show_city.
  rewrite Htext.
  change (default [] (Some (cmd ++ ws ++ arg))) with (cmd ++ ws ++ arg).
  rewrite (city_from_text_command cmd ws arg Hne Hcmd Hws1 Hws).
  destruct (strip arg) as [|x l] eqn:E; [done|].
  assert (get_city_by_name (bot_db st) (x :: l)
          = get_city_by_name (bot_db st) arg) as Hlook.
  { apply lookup_congr. by rewrite <- E, strip_idemp. }
  rewrite get_coords_by_name_fmap, Hlook.
  destruct (get_city_by_name (bot_db st) arg) as [c|]; [|done].
  cbn [fmap option_fmap option_map]. cbn zeta.
  assert (points_draws [(c_city c, c_lat c, c_lng c)]
          = marker_and_label (c_city c) (c_lat c) (c_lng c)) as Hd.
  { unfold points_draws. by rewrite bind_singleton. }
  assert (Forall2 (fun item p => point_of B item = Ok p)
            [<[py "city" := VStr (c_city c)]>
               (<[py "lat" := VFloat (c_lat c)]>
                  (<[py "lon" := VFloat (c_lng c)]> ∅))]
            [(c_city c, c_lat c, c_lng c)]) as Hpts.
  { constructor; [apply point_of_single|constructor]. }
  rewrite <- Hd. split.
  - intros Hacc.
    rewrite (render_and_send_accepted B _ _ _ _ st Hpts Hacc).
    by rewrite <- !app_assoc.
  - intros Hno. by apply (render_and_send_refused B _ _ _ _ st Hpts).
Qed.

(** User 7 writes "/show_city Zurich" in chat 42: the map of Zurich is sent
    as a photo. *)
Lemma handle_show_city_outcome_witness :
  handle_show_city demo_builtins
    (Message 42 7 (Some (py "/show_city" ++ py " " ++ py "Zurich"))) demo_bot
  = (Returned tt,
     {| bot_db := demo_db;
        bot_world :=
          {| figs := [];
             files :=
               <[py "map_42_single.png" :=
                   base_layers
                   ++ [Plot 8.5 47.375; Text 9.5 48.375 (py "Zurich");
                       TightLayout]]> ∅;
             writable := writable empty_world |};
        bot_sent :=
          [SendPhoto 42
             (base_layers
              ++ [Plot 8.5 47.375; Text 9.5 48.375 (py "Zurich");
                  TightLayout])] |}).
Proof.
  pose proof (handle_show_city_outcome demo_builtins
                (Message 42 7 (Some (py "/show_city" ++ py " " ++ py "Zurich")))
                demo_bot (py "/show_city") (py " ") (py "Zurich")
                eq_refl ltac:(discriminate) ltac:(repeat constructor)
                ltac:(discriminate) ltac:(repeat constructor)) as H.
  change (strip (py "Zurich")) with (py "Zurich") in H.
  change (get_city_by_name (bot_db demo_bot) (py "Zurich"))
    with (Some zurich) in H.
  cbv beta iota zeta in H. destruct H as [H _].
  rewrite H.
  - vm_compute. reflexivity.
  - unfold accepts. split_and!; vm_compute; reflexivity.
Defined.

Section FavoritesHandlers.

Variable B : builtins.

Implicit Types (m : message) (st : bot) (t : list (Z * Z)).

(** The point drawn for a row of the favorites query. *)
Let row_point (r : fav_row) : pystr * float * float := (r.1.1.1, r.1.1.2, r.1.2).

Lemma handle_show_my_cities_rows m st t :
  users_cities (bot_db st) = Some t ->
  handle_show_my_cities B m st =
  match merge_sort by_city
          (favorites_join (cities (bot_db st)) t (msg_from_user_id m)) with
  | [] => (Returned tt, send (SendMessage (msg_chat_id m) text_no_cities) st)
  | rows =>
      render_and_send B (msg_chat_id m)
        (py "map_" ++ str_of_int (msg_chat_id m) ++ py "_all.png")
        (city_record <$> rows) st
  end.
Proof.
  intros Ht. unfold handle_show_my_cities, select_cities. rewrite Ht.
  by destruct (merge_sort by_city _).
Qed.

Lemma rows_points (rows : list fav_row) :
  Forall2 (fun item p => point_of B item = Ok p)
    (city_record <$> rows) (row_point <$> rows).
Proof.
  apply Forall2_fmap, Forall_Forall2_diag, Forall_forall. intros r _.
  apply point_of_city_record.
Qed.

Lemma rows_fields (rows : list fav_row) :
  Forall2 (fun (r : pydict) (p : pystr * float * float) =>
             r !! py "city" = Some (VStr p.1.1)
             /\ r !! py "lat" = Some (VFloat p.1.2)
             /\ r !! py "lng" = Some (VFloat p.2))
    (city_record <$> rows) (row_point <$> rows).
Proof.
  apply Forall2_fmap, Forall_Forall2_diag, Forall_forall. intros r _.
  destruct (city_record_lookups r) as (Hc & _ & Hlat & _).
  split_and!; [done|done|apply city_record_lng].
Qed.

Lemma plot_in_points_draws (pts : list (pystr * float * float))
    (name : pystr) (lat lon : float) :
  (name, lat, lon) ∈ pts -> Plot lon lat ∈ points_draws pts.
Proof.
  intros Hin. unfold points_draws. apply list_elem_of_bind.
  exists (name, lat, lon). split; [|done]. unfold marker_and_label. left.
Qed.

Lemma handle_show_my_cities_unfold m st (recs : list pydict) :
  select_cities (bot_db st) (msg_from_user_id m) = Ok recs ->
  exists pts,
    Forall2 (fun (r : pydict) (p : pystr * float * float) =>
               r !! py "city" = Some (VStr p.1.1)
               /\ r !! py "lat" = Some (VFloat p.1.2)
               /\ r !! py "lng" = Some (VFloat p.2)) recs pts
    /\ Forall2 (fun r p => point_of B r = Ok p) recs pts
    /\ handle_show_my_cities B m st =
       match recs with
       | [] =>
           (Returned tt, send (SendMessage (msg_chat_id m) text_no_cities) st)
       | _ :: _ =>
           render_and_send B (msg_chat_id m)
             (py "map_" ++ str_of_int (msg_chat_id m) ++ py "_all.png") recs st
       end.
Proof.
  unfold select_cities.
  destruct (users_cities (bot_db st)) as [t|] eqn:Ht; [|done].
  intros [= <-].
  set (rows := merge_sort by_city _).
  exists (row_point <$> rows).
  split; [apply rows_fields|]. split; [apply rows_points|].
  rewrite (handle_show_my_cities_rows m st t Ht). fold rows.
  by destruct rows as [|r rows'].
Qed.

End FavoritesHandlers.

(** X24. [/show_my_cities]: for a sender without listed favorites the only
    effect is the no-cities message; otherwise the list of [select_cities]
    is rendered to [map_<chat id>_all.png], one marker per listed city at
    its stored (lng, lat) with the city name as label: when the library and
    the file system accept the figure under that file name, the file is
    sent to the chat as a photo and the figure is closed; when they do not
    accept it, the handler raises, sends nothing and leaves the figure
    open. *)
Theorem handle_show_my_cities_outcome
    (B : builtins) (m : message) (st : bot) (recs : list pydict) :
  select_cities (bot_db st) (msg_from_user_id m) = Ok recs ->
  exists pts,
    Forall2 (fun (r : pydict) (p : pystr * float * float) =>
               r !! py "city" = Some (VStr p.1.1)
               /\ r !! py "lat" = Some (VFloat p.1.2)
               /\ r !! py "lng" = Some (VFloat p.2)) recs pts
    /\ match recs with
       | [] =>
           handle_show_my_cities B m st
           = (Returned tt, send (SendMessage (msg_chat_id m) text_no_cities) st)
       | _ :: _ =>
           let path :=
             py "map_" ++ str_of_int (msg_chat_id m) ++ py "_all.png" in
           let calls := base_layers ++ points_draws pts in
           (accepts B (bot_world st) path path calls ->
            handle_show_my_cities B m st
            = (Returned tt,
               {| bot_db := bot_db st;
                  bot_world :=
                    {| figs := figs (bot_world st);
                       files :=
                         <[path := calls ++ [TightLayout]]>
                           (files (bot_world st));
                       writable := writable (bot_world st) |};
                  bot_sent :=
                    bot_sent st
                    ++ [SendPhoto (msg_chat_id m) (calls ++ [TightLayout])] |}))
           /\ ((forall target, ~ accepts B (bot_world st) path target calls) ->
               exists e ds,
                 handle_show_my_cities B m st
                 = (Failed (Raised e),
                    {| bot_db := bot_db st;
                       bot_world :=
                         {| figs :=
                              figs (bot_world st)
                              ++ [(S (max_list (fst <$> figs (bot_world st))),
                                   ds)];
                            files := files (bot_world st);
                            writable := writable (bot_world st) |};
                       bot_sent := bot_sent st |}))
       end.
Proof.
  intros Hrecs.
  destruct (handle_show_my_cities_unfold B m st recs Hrecs)
    as (pts & Hfields & Hpts & ->).
  exists pts. split; [exact Hfields|].
  destruct recs as [|r recs']; [done|]. cbv zeta. split.
  - intros Hacc.
    rewrite (render_and_send_accepted B _ _ _ _ st Hpts Hacc).
    by rewrite <- !app_assoc.
  - intros Hno. by apply (render_and_send_refused B _ _ _ _ st Hpts).
Qed.

(** User 7, with Zurich and Amsterdam stored, asks in chat 42: the map of
    both cities is sent as a photo. *)
Lemma handle_show_my_cities_outcome_witness :
  handle_show_my_cities demo_builtins
    (Message 42 7 (Some (py "/show_my_cities")))
    {| bot_db := {| cities := cities demo_db;
                    users_cities := Some [(7, 2); (7, 3)]%Z |};
       bot_world := empty_world; bot_sent := [] |}
  = (Returned tt,
     {| bot_db := {| cities := cities demo_db;
                     users_cities := Some [(7, 2); (7, 3)]%Z |};
        bot_world :=
          {| figs := [];
             files :=
               <[py "map_42_all.png" :=
                   base_layers
                   ++ [Plot 4.875 52.375; Text 5.875 53.375 (py "Amsterdam");
                       Plot 8.5 47.375; Text 9.5 48.375 (py "Zurich");
                       TightLayout]]> ∅;
             writable := writable empty_world |};
        bot_sent :=
          [SendPhoto 42
             (base_layers
              ++ [Plot 4.875 52.375; Text 5.875 53.375 (py "Amsterdam");
                  Plot 8.5 47.375; Text 9.5 48.375 (py "Zurich");
                  TightLayout])] |}).
Proof.
  destruct (handle_show_my_cities_outcome demo_builtins
              (Message 42 7 (Some (py "/show_my_cities")))
              {| bot_db := {| cities := cities demo_db;
                              users_cities := Some [(7, 2); (7, 3)]%Z |};
                 bot_world := empty_world; bot_sent := [] |}
              (city_record <$> [fav_columns amsterdam; fav_columns zurich]))
    as (pts & Hfields & H).
  - vm_compute. reflexivity.
  - assert (pts = [(py "Amsterdam", 52.375%float, 4.875%float);
                   (py "Zurich", 47.375%float, 8.5%float)]) as ->.
    { apply Forall2_cons_inv_l in Hfields as (p1 & pts1 & H1 & Hfields & ->).
      apply Forall2_cons_inv_l in Hfields as (p2 & pts2 & H2 & Hfields & ->).
      apply Forall2_nil_inv_l in Hfields as ->.
      destruct p1 as [[n1 a1] o1], p2 as [[n2 a2] o2].
      destruct H1 as (Hn1 & Ha1 & Ho1), H2 as (Hn2 & Ha2 & Ho2).
      vm_compute in Hn1, Ha1, Ho1, Hn2, Ha2, Ho2.
      injection Hn1 as <-; injection Ha1 as <-; injection Ho1 as <-.
      by injection Hn2 as <-; injection Ha2 as <-; injection Ho2 as <-. }
    cbv beta iota zeta in H. destruct H as [H _].
    rewrite H.
    + vm_compute. reflexivity.
    + unfold accepts. split_and!; vm_compute; reflexivity.
Defined.

Section RememberThenShow.

Variable B : builtins.

Lemma handle_remember_city_resolved
    (m : message) (st : bot) (cmd ws arg : pystr) (t : list (Z * Z))
    (c : CityRow) :
  msg_text m = Some (cmd ++ ws ++ arg) ->
  cmd <> [] -> Forall (fun c => isspace c = false) cmd ->
  ws <> [] -> Forall (fun c => isspace c = true) ws ->
  users_cities (bot_db st) = Some t ->
  strip arg <> [] ->
  get_city_by_name (bot_db st) arg = Some c ->
  exists t1,
    (msg_from_user_id m, c_id c) ∈ t1
    /\ handle_remember_city m st =
       (Returned tt,
        {| bot_db := {| cities := cities (bot_db st); users_cities := Some t1 |};
           bot_world := bot_world st;
           bot_sent :=
             bot_sent st
             ++ [SendMessage (msg_chat_id m) (text_saved (strip arg))] |}).
Proof.
  intros Htext Hne Hcmd Hws1 Hws Ht Harg Hc. unfold handle_remember_city.
  rewrite Htext.
  change (default [] (Some (cmd ++ ws ++ arg))) with (cmd ++ ws ++ arg).
  rewrite (city_from_text_command cmd ws arg Hne Hcmd Hws1 Hws).
  destruct (strip arg) as [|x l] eqn:E; [done|].
  assert (get_city_by_name (bot_db st) (x :: l) = Some c) as Hlook.
  { rewrite <- Hc. apply lookup_congr. by rewrite <- E, strip_idemp. }
  unfold add_city. rewrite Hlook, Ht.
  destruct (sql_insert_ignore t (msg_from_user_id m, c_id c))
    as (t1 & -> & Hin & _ & _).
  by exists t1.
Qed.

End RememberThenShow.

(** X25. A city stored with [/remember_city] is on the next map: when the
    name resolves to the row [c], the list a following [/show_my_cities] of
    the same sender renders holds [c], and when the library and the file
    system accept the figure of that list under the file name of the chat,
    the handler returns, closes its figure, and its last message is a photo
    that holds the marker of [c] at the stored (lng, lat). *)
Theorem remember_then_show_my_cities
    (B : builtins) (m1 m2 : message) (st : bot) (cmd ws arg : pystr)
    (t : list (Z * Z)) (c : CityRow) :
  msg_text m1 = Some (cmd ++ ws ++ arg) ->
  cmd <> [] ->
  Forall (fun c => isspace c = false) cmd ->
  ws <> [] ->
  Forall (fun c => isspace c = true) ws ->
  users_cities (bot_db st) = Some t ->
  strip arg <> [] ->
  get_city_by_name (bot_db st) arg = Some c ->
  msg_from_user_id m2 = msg_from_user_id m1 ->
  exists recs pts,
    select_cities (bot_db (handle_remember_city m1 st).2) (msg_from_user_id m2)
    = Ok recs
    /\ Forall2 (fun (r : pydict) (p : pystr * float * float) =>
                  r !! py "city" = Some (VStr p.1.1)
                  /\ r !! py "lat" = Some (VFloat p.1.2)
                  /\ r !! py "lng" = Some (VFloat p.2)) recs pts
    /\ (c_city c, c_lat c, c_lng c) ∈ pts
    /\ Plot (c_lng c) (c_lat c) ∈ points_draws pts
    /\ (accepts B (bot_world st)
          (py "map_" ++ str_of_int (msg_chat_id m2) ++ py "_all.png")
          (py "map_" ++ str_of_int (msg_chat_id m2) ++ py "_all.png")
          (base_layers ++ points_draws pts) ->
        exists st',
          handle_show_my_cities B m2 (handle_remember_city m1 st).2
          = (Returned tt, st')
          /\ last (bot_sent st')
             = Some (SendPhoto (msg_chat_id m2)
                       (base_layers ++ points_draws pts ++ [TightLayout]))
          /\ figs (bot_world st') = figs (bot_world st)).
Proof.
  intros Htext Hne Hcmd Hws1 Hws Ht Harg Hc Huser.
  destruct (handle_remember_city_resolved m1 st cmd ws arg t c
              Htext Hne Hcmd Hws1 Hws Ht Harg Hc) as (t1 & Hin & ->).
  cbn [snd bot_db].
  set (st1 := {| bot_db := _; bot_world := bot_world st; bot_sent := _ |}).
  set (rows := merge_sort by_city
                 (favorites_join (cities (bot_db st)) t1 (msg_from_user_id m2))).
  assert (select_cities (bot_db st1) (msg_from_user_id m2)
          = Ok (city_record <$> rows)) as Hsel by done.
  assert (fav_columns c ∈ rows) as Hrow.
  { unfold rows. rewrite (merge_sort_Permutation by_city), Huser.
    apply elem_of_favorites_join. exists c. split_and!; [|done|done].
    by apply get_city_by_name_Some in Hc as [Hc _]. }
  destruct (handle_show_my_cities_unfold B m2 st1 _ Hsel)
    as (pts & Hfields & Hpts & Hshow).
  assert (pts = (fun r : fav_row => (r.1.1.1, r.1.1.2, r.1.2)) <$> rows) as Hp.
  { clear -Hpts. revert pts Hpts.
    induction rows as [|r rows IH]; intros pts Hpts.
    - by apply Forall2_nil_inv_l in Hpts.
    - rewrite fmap_cons in Hpts.
      apply Forall2_cons_inv_l in Hpts as (p & pts' & Hr & Hpts & ->).
      rewrite point_of_city_record in Hr. injection Hr as <-.
      rewrite fmap_cons. f_equal. by apply IH. }
  assert ((c_city c, c_lat c, c_lng c) ∈ pts) as Hcp.
  { rewrite Hp. apply list_elem_of_fmap. by exists (fav_columns c). }
  exists (city_record <$> rows), pts.
  split_and!; [exact Hsel|exact Hfields|exact Hcp| |].
  - by apply (plot_in_points_draws _ (c_city c)).
  - intros Hacc. rewrite Hshow.
    destruct rows as [|r rows'] eqn:E; [by apply not_elem_of_nil in Hrow|].
    rewrite fmap_cons. rewrite fmap_cons in Hpts.
    rewrite (render_and_send_accepted B _ _ _ pts st1 Hpts Hacc).
    eexists. split; [reflexivity|]. cbn [bot_sent bot_world figs].
    split; [|done]. apply last_snoc.
Qed.

(** User 7 writes "/remember_city Zurich" and then "/show_my_cities": the
    photo sent last holds the marker of Zurich. *)
Lemma remember_then_show_my_cities_witness :
  (handle_show_my_cities demo_builtins
     (Message 42 7 (Some (py "/show_my_cities")))
     (handle_remember_city
        (Message 42 7 (Some (py "/remember_city" ++ py " " ++ py "Zurich")))
        demo_bot).2).1 = Returned tt
  /\ exists recs pts,
       select_cities
         (bot_db (handle_remember_city
                    (Message 42 7
                       (Some (py "/remember_city" ++ py " " ++ py "Zurich")))
                    demo_bot).2) 7
       = Ok recs
       /\ Forall2 (fun (r : pydict) (p : pystr * float * float) =>
                     r !! py "city" = Some (VStr p.1.1)
                     /\ r !! py "lat" = Some (VFloat p.1.2)
                     /\ r !! py "lng" = Some (VFloat p.2)) recs pts
       /\ (c_city zurich, c_lat zurich, c_lng zurich) ∈ pts
       /\ Plot (c_lng zurich) (c_lat zurich) ∈ points_draws pts
       /\ (accepts demo_builtins (bot_world demo_bot)
             (py "map_" ++ str_of_int 42 ++ py "_all.png")
             (py "map_" ++ str_of_int 42 ++ py "_all.png")
             (base_layers ++ points_draws pts) ->
           exists st',
             handle_show_my_cities demo_builtins
               (Message 42 7 (Some (py "/show_my_cities")))
               (handle_remember_city
                  (Message 42 7
                     (Some (py "/remember_city" ++ py " " ++ py "Zurich")))
                  demo_bot).2
             = (Returned tt, st')
             /\ last (bot_sent st')
                = Some (SendPhoto 42
                          (base_layers ++ points_draws pts ++ [TightLayout]))
             /\ figs (bot_world st') = figs (bot_world demo_bot)).
Proof.
  split; [vm_compute; reflexivity|].
  apply (remember_then_show_my_cities demo_builtins
           (Message 42 7 (Some (py "/remember_city" ++ py " " ++ py "Zurich")))
           (Message 42 7 (Some (py "/show_my_cities")))
           demo_bot (py "/remember_city") (py " ") (py "Zurich") [] zurich).
  - reflexivity.
  - discriminate.
  - repeat constructor.
  - discriminate.
  - repeat constructor.
  - reflexivity.
  - vm_compute. discriminate.
  - vm_compute. reflexivity.
  - reflexivity.
Defined.
